(** * salt-ldap: LDAP authentication and LDAP external pillar

    A shallow embedding of [auth/ldap.py] and [pillar/pillar_ldap.py].

    Python dictionaries that the code only reads by iterating over them
    (the attribute mapping of a directory entry) are association lists in
    iteration order; dictionaries that the code builds by assignment (the
    pillar result) are finite maps.  Code that can raise returns a [res];
    code that talks to the directory, the file system or the logger runs
    in the state-and-exception monad [M] over an abstract world. *)

From Stdlib Require Import String Ascii List ZArith Lia.
From stdpp Require Import gmap strings list fin_maps pretty.
Import ListNotations.
Open Scope string_scope.

(** ** Python prelude: exceptions, results, strings *)

Module Py.

(** The exceptions the two modules can meet.  All of them derive from
    Python's [Exception]; asynchronous interrupts are outside the model. *)
Inductive exn : Type :=
| KeyError (key : string)
| IndexError
| ValueError (msg : string)
| TypeError (msg : string)
| AttributeError (msg : string)
| NameError (name : string)
| UnboundLocalError (name : string)
| IOError (msg : string)
| TemplateError (msg : string)
| LDAPError (desc : string)
| CommandExecutionError (msg : string)
| SaltInvocationError (msg : string).

(** Outcome of a call: a value, or a raised exception. *)
Inductive res (A : Type) : Type :=
| Ret (a : A)
| Raise (e : exn).
Arguments Ret {A} a.
Arguments Raise {A} e.


Definition res_bind {A B} (r : res A) (k : A -> res B) : res B :=
  match r with Ret a => k a | Raise e => Raise e end.

(** [sub in s] for a one-character [sub]. *)
Fixpoint contains (c : ascii) (s : string) : bool :=
  match s with
  | EmptyString => false
  | String d rest => if Ascii.eqb d c then true else contains c rest
  end.

(** Number of occurrences of a character. *)
Fixpoint count (c : ascii) (s : string) : nat :=
  match s with
  | EmptyString => 0
  | String d rest => (if Ascii.eqb d c then 1 else 0) + count c rest
  end.

(** [s.split(sep)] for a one-character separator: the pieces between the
    separators, of which there is always at least one. *)
Fixpoint split (c : ascii) (s : string) : list string :=
  match s with
  | EmptyString => [EmptyString]
  | String d rest =>
      if Ascii.eqb d c then EmptyString :: split c rest
      else match split c rest with
           | p :: ps => String d p :: ps
           | [] => [String d EmptyString]
           end
  end.

(** [a, b = pieces]: unpacking into exactly two names. *)
Definition unpack2 (pieces : list string) : res (string * string) :=
  match pieces with
  | [a; b] => Ret (a, b)
  | _ :: _ :: _ :: _ => Raise (ValueError "too many values to unpack")
  | _ => Raise (ValueError "need more than 1 value to unpack")
  end.

(** A dictionary that is iterated: keys in iteration order. *)
Definition odict (V : Type) : Type := list (string * V).

(** [d.get(key)] *)
Fixpoint dict_get {V} (d : odict V) (key : string) : option V :=
  match d with
  | [] => None
  | (k, v) :: rest => if String.eqb k key then Some v else dict_get rest key
  end.

(** [x in xs] for a list of strings. *)
Definition str_in (x : string) (xs : list string) : bool :=
  existsb (String.eqb x) xs.

(** *** Effects

    Calls into the directory library, the file system and the logger run
    against an abstract world of type [W]; every such call is also
    appended to a trace, so that theorems can say which calls were made. *)

Inductive event : Type :=
| EvLog (level : string) (msg : string)
| EvPrint (msg : string)
| EvCall (fn : string) (args : list string).

Record state (W : Type) : Type := mkState {
  world : W;
  trace : list event
}.
Arguments mkState {W} _ _.
Arguments world {W} _.
Arguments trace {W} _.

Definition M (W A : Type) : Type := state W -> res A * state W.

Definition ret {W A} (a : A) : M W A := fun st => (Ret a, st).

Definition raise {W A} (e : exn) : M W A := fun st => (Raise e, st).

Definition bind {W A B} (m : M W A) (k : A -> M W B) : M W B :=
  fun st => match m st with
            | (Ret a, st') => k a st'
            | (Raise e, st') => (Raise e, st')
            end.

(** A pure computation that may raise. *)
Definition lift {W A} (r : res A) : M W A := fun st => (r, st).

(** [try: m  except: ...] with the outcome of [m] handed to the caller. *)
Definition attempt {W A} (m : M W A) : M W (res A) :=
  fun st => let (r, st') := m st in (Ret r, st').

(** A call to the outside: recorded, then answered by the world. *)
Definition extern {W A} (fn : string) (args : list string)
    (f : W -> res A * W) : M W A :=
  fun st => let (r, w) := f (world st) in
            (r, mkState w (trace st ++ [EvCall fn args])).

(** [log.<level>(msg)] *)
Definition log {W} (level msg : string) : M W unit :=
  fun st => (Ret tt, mkState (world st) (trace st ++ [EvLog level msg])).

(** [print(msg)] *)
Definition print {W} (msg : string) : M W unit :=
  fun st => (Ret tt, mkState (world st) (trace st ++ [EvPrint msg])).

(** How often a function of the outside was called. *)
Definition is_call (fn : string) (ev : event) : bool :=
  match ev with
  | EvCall g _ => String.eqb g fn
  | _ => false
  end.

Definition calls_of (fn : string) (tr : list event) : nat :=
  length (List.filter (is_call fn) tr).

(** [str(e)] *)
Definition exn_str (e : exn) : string :=
  match e with
  | KeyError k => k
  | IndexError => "list index out of range"
  | ValueError m | TypeError m | AttributeError m | IOError m
  | TemplateError m | LDAPError m | CommandExecutionError m
  | SaltInvocationError m => m
  | NameError n => "name '" ++ n ++ "' is not defined"
  | UnboundLocalError n =>
      "local variable '" ++ n ++ "' referenced before assignment"
  end.

End Py.

Import Py.

Declare Scope py_scope.
Delimit Scope py_scope with py.
Notation "'let*' x ':=' m 'in' k" := (bind m (fun x => k))
  (at level 10, x name, m at level 100, k at level 200) : py_scope.
Notation "m '>>' k" := (bind m (fun _ => k))
  (at level 65, right associativity) : py_scope.
Open Scope py_scope.

(** ** pillar/pillar_ldap.py *)

Module PillarLdap.

(** A value of the pillar dictionary: the text after the [=] of a
    composite value, or an attribute's list of values. *)
Inductive pval : Type :=
| PStr (s : string)
| PList (l : list string)
| PNone.

(** Attribute mapping of a directory entry. *)
Definition attrmap : Type := odict (list string).

(** What [data.get(key)] stores when assigned into the result. *)
Definition pval_of (o : option (list string)) : pval :=
  match o with Some vals => PList vals | None => PNone end.

Definition eq_char : ascii := "="%char.

(** The [for item in data.get(key)] loop of [_result_to_dict]. *)
Fixpoint flatten_items (data : attrmap) (key : string) (items : list string)
    (result : gmap string pval) : res (gmap string pval) :=
  match items with
  | [] => Ret result
  | item :: rest =>
      if contains eq_char item then
        match unpack2 (split eq_char item) with
        | Ret (k, v) => flatten_items data key rest (<[k := PStr v]> result)
        | Raise e => Raise e
        end
      else
        flatten_items data key rest (<[key := pval_of (dict_get data key)]> result)
  end.

(** The [for key in data] loop of [_result_to_dict]; [keys] is what is
    left of the iteration over [data]. *)
Fixpoint flatten_keys (data : attrmap) (attrs : list string) (keys : list string)
    (result : gmap string pval) : res (gmap string pval) :=
  match keys with
  | [] => Ret result
  | key :: rest =>
      if str_in key attrs then
        match dict_get data key with
        | Some items =>
            match flatten_items data key items result with
            | Ret result' => flatten_keys data attrs rest result'
            | Raise e => Raise e
            end
        | None => Raise (TypeError "'NoneType' object is not iterable")
        end
      else
        flatten_keys data attrs rest (<[key := pval_of (dict_get data key)]> result)
  end.

(** [if not attrs: attrs = []] *)
Definition attrs_or_empty (attrs : option (list string)) : list string :=
  match attrs with
  | None => []
  | Some [] => []
  | Some l => l
  end.

(** [_result_to_dict(data, attrs=None)] *)
Definition _result_to_dict (data : attrmap) (attrs : option (list string))
    : res (gmap string pval) :=
  let attrs := attrs_or_empty attrs in
  flatten_keys data attrs (map fst data) ∅.

(** *** Notions the statements about flattening use *)

(** [key] is listed as composite in [attrs]. *)
Definition listed (attrs : option (list string)) (key : string) : bool :=
  str_in key (attrs_or_empty attrs).

(** [item] has the form [k=v], with its only [=] between [k] and [v]. *)
Definition kv_form (item k v : string) : Prop :=
  item = k ++ "=" ++ v /\
  contains eq_char k = false /\ contains eq_char v = false.

(** [item] is one of the values of a composite attribute of [data]. *)
Definition composite_value (data : attrmap) (attrs : option (list string))
    (item : string) : Prop :=
  exists key items,
    listed attrs key = true /\ dict_get data key = Some items /\ In item items.

(** No composite value of [data] has two or more [=]. *)
Definition splittable (data : attrmap) (attrs : option (list string)) : Prop :=
  forall item, composite_value data attrs item -> count eq_char item <= 1.


(** No composite value of [data] has the form [name=...]. *)
Definition unnamed (data : attrmap) (attrs : option (list string))
    (name : string) : Prop :=
  forall item v, composite_value data attrs item -> ~ kv_form item name v.

(** *** Configuration and collaborators *)

(** One search specification of the pillar configuration file; a field is
    [None] when its key is absent from the mapping. *)
Record Conf : Type := mkConf {
  c_server : option string;
  c_port : option string;
  c_tls : option bool;
  c_binddn : option string;
  c_bindpw : option string;
  c_filter : option string;
  c_dn : option string;
  c_scope : option Z;
  c_attrs : option (list string)
}.

(** The parsed configuration file, a mapping of the documented shape: the
    list of source names under the key [search_order], the path that
    [ext_pillar] stores under the key [conf_file], and the search
    specifications under the other keys. *)
Record Opts : Type := mkOpts {
  search_order : option (list string);
  sources : gmap string Conf;
  conf_file : option string
}.

(** What a key of that mapping holds. *)
Inductive optval : Type :=
| OSpec (conf : Conf)
| OOrder (order : list string)
| OPath (path : string).

(** [opts[key]] *)
Definition opts_getitem (opts : Opts) (key : string) : res optval :=
  match (if String.eqb key "search_order" then search_order opts else None) with
  | Some order => Ret (OOrder order)
  | None =>
      match (if String.eqb key "conf_file" then conf_file opts else None) with
      | Some path => Ret (OPath path)
      | None =>
          match sources opts !! key with
          | Some conf => Ret (OSpec conf)
          | None => Raise (KeyError key)
          end
      end
  end.

(** The empty mapping [{}] as a configuration. *)
Definition empty_opts : Opts :=
  {| search_order := None; sources := ∅; conf_file := None |}.

(** The [connargs] keyword dictionary. *)
Record ConnArgs : Type := mkConnArgs {
  ca_server : option string;
  ca_port : option string;
  ca_tls : option bool;
  ca_binddn : option string;
  ca_bindpw : option string
}.

(** One search result entry: its distinguished name and its attributes. *)
Definition entry : Type := (string * attrmap)%type.

(** What [ldap.search] answers: a mapping whose [results] key, when
    present, holds the list of entries found. *)
Record SearchReply : Type := mkReply {
  results : option (list entry)
}.

(** The signature of the execution function [ldap.search]. *)
Definition search_fn (W : Type) : Type :=
  string -> option string -> option Z -> option (list string) ->
  ConnArgs -> W -> res SearchReply * W.

(** What the module uses from its surroundings, over a world [W]. *)
Record Platform (W : Type) : Type := mkPlatform {
  os_path_isfile : string -> W -> bool;
  open_read : string -> W -> res unit * W;
  jinja_render_file : string -> W -> res string * W;
  yaml_safe_load : string -> res (option Opts);
  is_console_configured : W -> bool;
  salt_ldap_search : option (search_fn W)
}.
Arguments os_path_isfile {W} _ _ _.
Arguments open_read {W} _ _ _.
Arguments jinja_render_file {W} _ _ _.
Arguments yaml_safe_load {W} _ _.
Arguments is_console_configured {W} _ _.
Arguments salt_ldap_search {W} _.

(** The names bound in the module's global namespace: its imports, its
    own definitions and the names the loader injects. *)
Definition module_globals : list string :=
  ["os"; "logging"; "traceback"; "salt"; "string_types"; "yaml";
   "Environment"; "FileSystemLoader"; "ldap"; "has_ldap"; "log";
   "__virtual__"; "_render_template"; "_config"; "_result_to_dict";
   "_do_search"; "ext_pillar";
   "__salt__"; "__grains__"; "__opts__"; "__pillar__"].

(** Looking a global name up. *)
Definition global_name (name : string) : res unit :=
  if str_in name module_globals then Ret tt else Raise (NameError name).

(** [if d:] for a dictionary. *)
Definition dict_truthy (d : gmap string pval) : bool :=
  negb (bool_decide (d = ∅)).

(** [data.update(result)] *)
Definition dict_update (data result : gmap string pval) : gmap string pval :=
  result ∪ data.

Section Pillar.

Context {W : Type}.

Variable P : Platform W.

(** [_render_template(config_file)] *)
Definition _render_template (config_file : string) : M W string :=
  extern "jinja2.render" [config_file] (jinja_render_file P config_file).

(** [_config(name, conf)]: the value under [name], [None] when absent. *)
Definition _config {A} (name : Conf -> option A) (conf : Conf) : option A :=
  name conf.

(** [__salt__['ldap.search'](filter, dn, scope, attrs, **connargs)] *)
Definition salt_call_search (filter : string) (dn : option string)
    (scope : option Z) (attrs : option (list string)) (connargs : ConnArgs)
    : M W SearchReply :=
  match salt_ldap_search P with
  | None => raise (KeyError "ldap.search")
  | Some f =>
      extern "ldap.search"
        [filter; default "None" dn; from_option pretty "None" scope]
        (f filter dn scope attrs connargs)
  end.

(** The connection arguments [_do_search] builds from [conf]. *)
Definition conf_connargs (conf : Conf) : ConnArgs :=
  {| ca_server := _config c_server conf;
     ca_port := _config c_port conf;
     ca_tls := _config c_tls conf;
     ca_binddn := _config c_binddn conf;
     ca_bindpw := _config c_bindpw conf |}.

(** The body of the [try] of [_do_search]: the search, and the attribute
    mapping of the first entry it found,
    [ldap.search(...)['results'][0][1]]. *)
Definition raw_search (conf : Conf) (filter : string) : M W attrmap :=
  let* reply := salt_call_search filter (_config c_dn conf)
                  (_config c_scope conf) (_config c_attrs conf)
                  (conf_connargs conf) in
  let* found := lift (match results reply with
                      | Some l => Ret l
                      | None => Raise (KeyError "results")
                      end) in
  let* first := lift (match found with
                      | e :: _ => Ret e
                      | [] => Raise IndexError
                      end) in
  ret (snd first).

(** [_do_search(conf)]; the local variable [result] is [None] while it
    is unbound. *)
Definition _do_search (conf : Conf) : M W (gmap string pval) :=
  let* filter :=
    match c_filter conf with
    | Some f => ret f
    | None =>
        lift (global_name "SaltInvocationError") >>
        raise (SaltInvocationError "missing filter")
    end in
  let attrs := _config c_attrs conf in
  let* r := attempt (raw_search conf filter) in
  match r with
  | Raise e =>
      log "critical"
        ("Failed to retrieve pillar data from LDAP: " ++ exn_str e) >>
      ret ∅
  | Ret raw_result =>
      let* result :=
        match raw_result with
        | _ :: _ =>
            let* d := lift (_result_to_dict raw_result attrs) in
            ret (Some d)
        | [] => ret None
        end in
      match result with
      | Some result => ret result
      | None => raise (UnboundLocalError "result")
      end
  end.

(** [_do_search(config)] for what [opts[source]] holds: only a mapping
    can be indexed by name, as [_do_search] does first of all. *)
Definition do_search_item (config : optval) : M W (gmap string pval) :=
  match config with
  | OSpec conf => _do_search conf
  | OOrder _ => raise (TypeError "list indices must be integers, not str")
  | OPath _ => raise (TypeError "string indices must be integers, not str")
  end.

(** The [for source in opts['search_order']] loop of [ext_pillar]. *)
Fixpoint pillar_loop (opts : Opts) (order : list string)
    (data : gmap string pval) : M W (gmap string pval) :=
  match order with
  | [] => ret data
  | source :: rest =>
      let* config := lift (opts_getitem opts source) in
      let* result := do_search_item config in
      pillar_loop opts rest
        (if dict_truthy result then dict_update data result else data)
  end.

(** [ext_pillar(config_file)]; the local variable [opts] is [None] while
    it is unbound. *)
Definition ext_pillar (config_file : string) : M W (gmap string pval) :=
  let* isfile := (fun st => (Ret (os_path_isfile P config_file (world st)), st)) in
  let* opts :=
    if (isfile : bool) then
      let* r := attempt (
          extern "open" [config_file] (open_read P config_file) >>
          let* config := _render_template config_file in
          let* loaded :=
            match config with
            | EmptyString =>
                raise (AttributeError "'dict' object has no attribute 'read'")
            | _ => lift (yaml_safe_load P config)
            end in
          let opts := default empty_opts loaded in
          ret {| search_order := search_order opts;
                 sources := sources opts;
                 conf_file := Some config_file |}) in
      match r with
      | Ret opts => ret (Some opts)
      | Raise e =>
          let msg := "Error parsing configuration file: " ++ config_file
                     ++ " - " ++ exn_str e in
          (fun st => (if is_console_configured P (world st)
                      then log "warn" msg
                      else print msg) st) >>
          ret None
      end
    else
      log "debug" ("Missing configuration file: " ++ config_file) >>
      ret None in
  let data : gmap string pval := ∅ in
  match opts with
  | None => raise (UnboundLocalError "opts")
  | Some opts =>
      match search_order opts with
      | None => raise (KeyError "search_order")
      | Some order => pillar_loop opts order data
      end
  end.

(** The state after [_do_search] has reported the exception [e] with
    [log.critical]. *)
Definition reported (e : exn) (st : state W) : state W :=
  mkState (world st)
    (trace st ++ [EvLog "critical"
                    ("Failed to retrieve pillar data from LDAP: " ++ exn_str e)]).

(** *** The merge, as the specification words it

    Run the search of every source in the declared order and collect the
    flattened results; then merge them into the accumulator one after the
    other, a later result overwriting the keys it shares with an earlier
    one. *)
Fixpoint search_all (opts : Opts) (order : list string)
    : M W (list (gmap string pval)) :=
  match order with
  | [] => ret []
  | source :: rest =>
      let* config := lift (opts_getitem opts source) in
      let* result := do_search_item config in
      let* others := search_all opts rest in
      ret (result :: others)
  end.

Definition merge_all (data : gmap string pval)
    (found : list (gmap string pval)) : gmap string pval :=
  fold_left dict_update found data.

(** *** States and values [ext_pillar] goes through *)

(** The state once the configuration file is opened and rendered, the
    rendering leaving the world [w]. *)
Definition config_read (config_file : string) (st : state W) (w : W)
    : state W :=
  mkState w ((trace st ++ [EvCall "open" [config_file]])
             ++ [EvCall "jinja2.render" [config_file]]).

(** The state after the [except] branch of [ext_pillar] has reported the
    exception [e]: with [log.warn] when the console is configured, with
    [print] otherwise. *)
Definition parse_reported (config_file : string) (e : exn) (st : state W)
    : state W :=
  let msg := "Error parsing configuration file: " ++ config_file
             ++ " - " ++ exn_str e in
  mkState (world st)
    (trace st ++ [if is_console_configured P (world st)
                  then EvLog "warn" msg else EvPrint msg]).

(** The value of [opts] once the file is parsed: what [yaml.safe_load]
    gave, or [{}], with the path under [conf_file]. *)
Definition loaded_opts (config_file : string) (loaded : option Opts) : Opts :=
  {| search_order := search_order (default empty_opts loaded);
     sources := sources (default empty_opts loaded);
     conf_file := Some config_file |}.

End Pillar.

End PillarLdap.

(** ** auth/ldap.py *)

Module AuthLdap.

(** The module-level [__opts__] mapping. *)
Record Opts : Type := mkOpts {
  server : string;
  port : string;
  tls : bool;
  scope : Z;
  basedn : string;
  binddn : string;
  bindpw : string;
  filter : string
}.

(** The defaults written in the module. *)
Definition default_opts : Opts :=
  {| server := "localhost";
     port := "389";
     tls := false;
     scope := 2;
     basedn := "o=acme,c=gb";
     binddn := "uid=admin,o=acme,c=gb";
     bindpw := "sssssh";
     filter := "emailAddress={{ username }}" |}.

(** The [connargs] dictionary, keyword arguments of [_LDAPConnection]. *)
Record ConnArgs : Type := mkConnArgs {
  ca_server : string;
  ca_port : string;
  ca_tls : bool;
  ca_binddn : string;
  ca_bindpw : string
}.

(** One search result entry: its distinguished name and its attributes. *)
Definition entry : Type := (string * odict (list string))%type.

(** The [ldap] library, over a world [W] and connection objects [Conn]. *)
Record LdapLib (W Conn : Type) : Type := mkLdapLib {
  ldap_initialize : string -> W -> res Conn * W;
  ldap_set_protocol_version : Conn -> Z -> W -> res unit * W;
  ldap_set_option : Conn -> string -> Z -> W -> res unit * W;
  ldap_start_tls_s : Conn -> W -> res unit * W;
  ldap_simple_bind_s : Conn -> string -> string -> W -> res unit * W;
  ldap_search_s : Conn -> string -> Z -> string -> W -> res (list entry) * W
}.
Arguments ldap_initialize {W Conn} _ _ _.
Arguments ldap_set_protocol_version {W Conn} _ _ _ _.
Arguments ldap_set_option {W Conn} _ _ _ _ _.
Arguments ldap_start_tls_s {W Conn} _ _ _.
Arguments ldap_simple_bind_s {W Conn} _ _ _ _ _.
Arguments ldap_search_s {W Conn} _ _ _ _ _ _.

Section Auth.

Context {W Conn : Type}.

(** The directory library in use. *)
Variable lib : LdapLib W Conn.

(** jinja2: [Environment().from_string(template).render(username=...)]. *)
Variable jinja_render : string -> string -> res string.

(** The configuration in force. *)
Variable __opts__ : Opts.

(** [_render_template(filter, username)] *)
Definition _render_template (filter username : string) : M W string :=
  lift (jinja_render filter username).

(** The constructor of [_LDAPConnection], called with [connargs] as
    keywords, and the [LDAP] object it leaves: bind to the directory with
    the passed credentials; any failure becomes a
    [CommandExecutionError]. *)
Definition _LDAPConnection (c : ConnArgs) : M W Conn :=
  let* r := attempt (
      let* conn := extern "ldap.initialize"
                     ["ldap://" ++ ca_server c ++ ":" ++ ca_port c]
                     (ldap_initialize lib
                        ("ldap://" ++ ca_server c ++ ":" ++ ca_port c)) in
      extern "protocol_version" ["3"] (ldap_set_protocol_version lib conn 3) >>
      extern "set_option" ["OPT_REFERRALS"; "0"]
        (ldap_set_option lib conn "OPT_REFERRALS" 0) >>
      (if ca_tls c
       then extern "start_tls_s" [] (ldap_start_tls_s lib conn)
       else ret tt) >>
      extern "simple_bind_s" [ca_binddn c; ca_bindpw c]
        (ldap_simple_bind_s lib conn (ca_binddn c) (ca_bindpw c)) >>
      ret conn) in
  match r with
  | Ret conn => ret conn
  | Raise _ =>
      raise (CommandExecutionError
               ("Failed to bind to LDAP server " ++ ca_server c ++ ":"
                ++ ca_port c ++ " as " ++ ca_binddn c))
  end.

(** The connection dictionary built from [__opts__]. *)
Definition service_connargs : ConnArgs :=
  {| ca_server := server __opts__;
     ca_port := port __opts__;
     ca_tls := tls __opts__;
     ca_binddn := binddn __opts__;
     ca_bindpw := bindpw __opts__ |}.

(** [connargs] after the update with the user's name and password. *)
Definition user_connargs (authdn password : string) : ConnArgs :=
  {| ca_server := server __opts__;
     ca_port := port __opts__;
     ca_tls := tls __opts__;
     ca_binddn := authdn;
     ca_bindpw := password |}.

(** [auth(username, password)] *)
Definition auth (username password : string) : M W bool :=
  let* filter := _render_template (filter __opts__) username in
  let dn := basedn __opts__ in
  let scope := scope __opts__ in
  let connargs := service_connargs in
  let* _ldap := _LDAPConnection connargs in
  log "debug" ("Running LDAP user dn search with filter:" ++ filter
               ++ ", dn:" ++ dn ++ ", scope:" ++ pretty scope) >>
  let* result := extern "search_s" [dn; pretty scope; filter]
                   (ldap_search_s lib _ldap dn scope filter) in
  if (length result <? 1)%nat then
    log "warn" ("Unable to find user " ++ username) >>
    ret false
  else if (1 <? length result)%nat then
    log "warn" ("Found multiple results for user " ++ username) >>
    ret false
  else
    match result with
    | [] => raise IndexError
    | (authdn, _) :: _ =>
        let connargs := user_connargs authdn password in
        log "debug" ("Attempting LDAP bind with user dn: " ++ authdn) >>
        let* r := attempt (_LDAPConnection connargs) in
        match r with
        | Raise _ =>
            log "warn" ("Failed to authenticate user dn via LDAP: " ++ authdn) >>
            ret false
        | Ret _ldap =>
            log "debug"
              ("Successfully authenticated user dn via LDAP: " ++ authdn) >>
            ret true
        end
    end.

End Auth.

(** *** What a run leaves in the trace *)

(** The calls the constructor of [_LDAPConnection] makes when each of
    them succeeds, in the order it makes them. *)
Definition connection_calls (c : ConnArgs) : list event :=
  let uri := "ldap://" ++ ca_server c ++ ":" ++ ca_port c in
  app [EvCall "ldap.initialize" [uri];
       EvCall "protocol_version" ["3"];
       EvCall "set_option" ["OPT_REFERRALS"; "0"]]
      (app (if ca_tls c then [EvCall "start_tls_s" []] else [])
           [EvCall "simple_bind_s" [ca_binddn c; ca_bindpw c]]).

(** The exception the constructor raises when it cannot bind. *)
Definition bind_failure (c : ConnArgs) : exn :=
  CommandExecutionError
    ("Failed to bind to LDAP server " ++ ca_server c ++ ":" ++ ca_port c
     ++ " as " ++ ca_binddn c).

(** The log record and the call of the search for the user's entry. *)
Definition search_events (o : Opts) (flt : string) : list event :=
  [EvLog "debug" ("Running LDAP user dn search with filter:" ++ flt
                  ++ ", dn:" ++ basedn o ++ ", scope:" ++ pretty (scope o));
   EvCall "search_s" [basedn o; pretty (scope o); flt]].

End AuthLdap.

(** ** A small directory to run the code against *)

Module Demo.

Import PillarLdap.

(** Pillar side: the world is the number of searches answered so far. *)
Definition host_entry (dn : string) (values : list string) : SearchReply :=
  {| results := Some [(dn, [("saltKeyValue", values)])] |}.

Definition demo_search : search_fn nat :=
  fun filter dn scope attrs connargs n =>
    (if String.eqb filter "(cn=host1)" then
       Ret (host_entry "cn=host1,ou=hosts,o=acme" ["ntpserver=ntp.acme.local"])
     else if String.eqb filter "(cn=site)" then
       Ret (host_entry "cn=site,o=acme" ["ntpserver=ntp.site.local"; "dns=10.0.0.1"])
     else if String.eqb filter "(cn=global)" then
       Ret (host_entry "cn=global,o=acme" ["ntpserver=ntp.global"; "domain=acme.local"])
     else if String.eqb filter "(cn=bare)" then
       Ret {| results := Some [("cn=bare,o=acme", [])] |}
     else if String.eqb filter "(cn=url)" then
       Ret (host_entry "cn=url,o=acme" ["repo=http://r/?a=b"])
     else if String.eqb filter "(cn=down)" then
       Raise (LDAPError "Can't contact LDAP server")
     else Ret {| results := Some [] |},
     S n).

Definition source (filter : string) : Conf :=
  {| c_server := Some "localhost"; c_port := Some "389"; c_tls := Some false;
     c_binddn := Some "uid=admin,o=acme,c=gb"; c_bindpw := Some "sssssh";
     c_filter := Some filter; c_dn := Some "ou=hosts,o=acme";
     c_scope := Some 2%Z; c_attrs := Some ["saltKeyValue"] |}.

Definition no_filter : Conf :=
  {| c_server := None; c_port := None; c_tls := None; c_binddn := None;
     c_bindpw := None; c_filter := None; c_dn := Some "ou=hosts,o=acme";
     c_scope := None; c_attrs := None |}.

Definition demo_sources : gmap string Conf :=
  <["ntp" := source "(cn=host1)"]>
  (<["site" := source "(cn=site)"]>
  (<["global" := source "(cn=global)"]>
  (<["bare" := source "(cn=bare)"]>
  (<["url" := source "(cn=url)"]>
  (<["down" := source "(cn=down)"]>
  (<["nofilter" := no_filter]> ∅)))))).

Definition demo_opts (order : list string) : Opts :=
  {| search_order := Some order; sources := demo_sources; conf_file := None |}.

Definition config_path : string := "/etc/salt/pillar_ldap.yaml".

Definition lf : string := String "010"%char EmptyString.

(** The rendered configuration file is its search order, one name a
    line; [demo_platform] parses it by splitting on the line feed. *)
Definition demo_platform (rendered : string) : Platform nat :=
  {| os_path_isfile := fun path _ => String.eqb path config_path;
     open_read := fun path n => (Ret tt, n);
     jinja_render_file := fun path n => (Ret rendered, n);
     yaml_safe_load := fun text =>
       Ret (Some (demo_opts (split "010"%char text)));
     is_console_configured := fun _ => true;
     salt_ldap_search := Some demo_search |}.

Definition start : state nat := mkState 0 [].

(** The platform whose configuration file declares three sources. *)
Definition three_sources : Platform nat :=
  demo_platform ("ntp" ++ lf ++ "site" ++ lf ++ "global").

(** Authenticator side: a directory with a service account and a user;
    the world is the number of binds attempted so far. *)
Definition accounts : list (string * string) :=
  [("uid=admin,o=acme,c=gb", "sssssh"); ("uid=alice,o=acme,c=gb", "secret")].

Definition demo_lib : AuthLdap.LdapLib nat string :=
  {| AuthLdap.ldap_initialize := fun uri n => (Ret uri, n);
     AuthLdap.ldap_set_protocol_version := fun _ _ n => (Ret tt, n);
     AuthLdap.ldap_set_option := fun _ _ _ n => (Ret tt, n);
     AuthLdap.ldap_start_tls_s := fun _ n => (Ret tt, n);
     AuthLdap.ldap_simple_bind_s := fun _ dn pw n =>
       (if existsb (fun a => String.eqb (fst a) dn && String.eqb (snd a) pw)
                   accounts
        then Ret tt else Raise (LDAPError "Invalid credentials"),
        S n);
     AuthLdap.ldap_search_s := fun _ dn scope filter n =>
       (Ret (if String.eqb filter "emailAddress=alice@x.com"
             then [("uid=alice,o=acme,c=gb", [("cn", ["Alice"])])]
             else if String.eqb filter "emailAddress=team@x.com"
             then [("uid=alice,o=acme,c=gb", [("cn", ["Alice"])]);
                   ("uid=bob,o=acme,c=gb", [("cn", ["Bob"])])]
             else []),
        n) |}.

(** Renders [emailAddress={{ username }}], whatever the template. *)
Definition demo_render (template username : string) : res string :=
  Ret ("emailAddress=" ++ username).




(** A platform whose configuration file parses to the empty document. *)
Definition blank_platform : Platform nat :=
  {| os_path_isfile := fun path _ => String.eqb path config_path;
     open_read := fun path n => (Ret tt, n);
     jinja_render_file := fun path n => (Ret "# nothing", n);
     yaml_safe_load := fun text => Ret None;
     is_console_configured := fun _ => false;
     salt_ldap_search := Some demo_search |}.

End Demo.

(** * Properties *)

(** ** Strings and unpacking *)

Section PreludeFacts.

Variable c : ascii.

Lemma contains_count (s : string) :
  contains c s = negb (Nat.eqb (count c s) 0).
Proof.
  induction s as [|d s IH]; simpl; [reflexivity|].
  destruct (Ascii.eqb d c); simpl; [reflexivity | exact IH].
Qed.

Lemma split_length (s : string) : length (split c s) = S (count c s).
Proof.
  induction s as [|d s IH]; simpl; [reflexivity|].
  destruct (Ascii.eqb d c); simpl.
  - now rewrite IH.
  - destruct (split c s); simpl in *; congruence.
Qed.

Lemma split_without (s : string) : contains c s = false -> split c s = [s].
Proof.
  induction s as [|d s IH]; simpl; [reflexivity|].
  destruct (Ascii.eqb d c); [discriminate|].
  intros H. now rewrite (IH H).
Qed.

Lemma split_around (k v : string) :
  contains c k = false -> contains c v = false ->
  split c (k ++ String c v) = [k; v].
Proof.
  intros Hk Hv. induction k as [|d k IH]; simpl in *.
  - rewrite Ascii.eqb_refl. now rewrite (split_without v Hv).
  - destruct (Ascii.eqb d c); [discriminate|]. now rewrite (IH Hk).
Qed.

Lemma split_two (s k v : string) :
  split c s = [k; v] ->
  s = (k ++ String c v)%string /\ contains c k = false /\ contains c v = false.
Proof.
  revert k. induction s as [|d s IH]; simpl; intros k H; [discriminate|].
  destruct (Ascii.eqb d c) eqn:E.
  - apply Ascii.eqb_eq in E. subst d. injection H as <- Hs.
    assert (Hn : count c s = 0).
    { pose proof (split_length s) as L. rewrite Hs in L. simpl in L. lia. }
    assert (Hc : contains c s = false) by (rewrite contains_count, Hn; reflexivity).
    rewrite (split_without s Hc) in Hs. injection Hs as <-.
    simpl. auto.
  - destruct (split c s) as [|p ps] eqn:Hs; [discriminate|].
    injection H as <- ->.
    destruct (IH p eq_refl) as (-> & Hp & Hv).
    simpl. rewrite E. auto.
Qed.

Lemma contains_around (k v : string) : contains c (k ++ String c v) = true.
Proof.
  induction k as [|d k IH]; simpl.
  - now rewrite Ascii.eqb_refl.
  - now destruct (Ascii.eqb d c).
Qed.

End PreludeFacts.

Lemma unpack2_Ret (pieces : list string) (a b : string) :
  unpack2 pieces = Ret (a, b) -> pieces = [a; b].
Proof.
  destruct pieces as [|x [|y [|z t]]]; simpl; intros H; try discriminate.
  now injection H as -> ->.
Qed.

Lemma unpack2_many (pieces : list string) :
  3 <= length pieces ->
  unpack2 pieces = Raise (ValueError "too many values to unpack").
Proof.
  destruct pieces as [|x [|y [|z t]]]; simpl; intros H; try lia. reflexivity.
Qed.

Lemma dict_get_keys {V} (d : odict V) (key : string) :
  In key (map fst d) <-> dict_get d key <> None.
Proof.
  induction d as [|[k v] d IH]; simpl.
  - split; [tauto | congruence].
  - destruct (String.eqb k key) eqn:E.
    + apply String.eqb_eq in E. split; [discriminate | auto].
    + apply String.eqb_neq in E. rewrite <- IH. tauto.
Qed.

Lemma str_in_In (x : string) (xs : list string) : str_in x xs = true <-> In x xs.
Proof.
  unfold str_in. rewrite existsb_exists. split.
  - intros (y & Hy & E). apply String.eqb_eq in E. now subst.
  - intros H. exists x. split; [assumption | apply String.eqb_refl].
Qed.

(** ** Flattening: [_result_to_dict] *)

Section FlattenFacts.

Import PillarLdap.

Variable data : attrmap.

(** The two loops run through a concatenation one part after the other. *)
Lemma flatten_items_app (key : string) (xs ys : list string)
    (result : gmap string pval) :
  flatten_items data key (xs ++ ys)%list result =
  res_bind (flatten_items data key xs result) (flatten_items data key ys).
Proof.
  revert result. induction xs as [|x xs IH]; intros result; simpl; [reflexivity|].
  destruct (contains eq_char x).
  - destruct (unpack2 (split eq_char x)) as [[k v]|e]; [apply IH | reflexivity].
  - apply IH.
Qed.

Lemma flatten_keys_app (attrs : list string) (xs ys : list string)
    (result : gmap string pval) :
  flatten_keys data attrs (xs ++ ys)%list result =
  res_bind (flatten_keys data attrs xs result) (flatten_keys data attrs ys).
Proof.
  revert result. induction xs as [|x xs IH]; intros result; simpl; [reflexivity|].
  destruct (str_in x attrs); [|apply IH].
  destruct (dict_get data x) as [items|]; [|reflexivity].
  destruct (flatten_items data x items result); [apply IH | reflexivity].
Qed.

(** A property of the result that every assignment of the inner loop
    keeps, the inner loop keeps. *)
Lemma flatten_items_inv (Q : gmap string pval -> Prop) (key : string)
    (items : list string) :
  (forall m item k v, In item items -> split eq_char item = [k; v] ->
     Q m -> Q (<[k := PStr v]> m)) ->
  (forall m item, In item items -> contains eq_char item = false ->
     Q m -> Q (<[key := pval_of (dict_get data key)]> m)) ->
  forall result result',
    Q result -> flatten_items data key items result = Ret result' -> Q result'.
Proof.
  induction items as [|item items IH]; intros Hkv Hown result result' HQ; simpl.
  - intros [= <-]. exact HQ.
  - assert (IH' := IH (fun m i k v Hi => Hkv m i k v (or_intror Hi))
                      (fun m i Hi => Hown m i (or_intror Hi))).
    destruct (contains eq_char item) eqn:Hc.
    + destruct (unpack2 (split eq_char item)) as [[k v]|e] eqn:Hu; [|discriminate].
      apply unpack2_Ret in Hu. apply IH'. apply (Hkv _ item); auto. now left.
    + apply IH'. apply (Hown _ item); auto. now left.
Qed.

(** And so does the outer loop, for the assignments of both loops. *)
Lemma flatten_keys_inv (Q : gmap string pval -> Prop) (attrs keys : list string) :
  (forall m key items item k v,
     In key keys -> str_in key attrs = true -> dict_get data key = Some items ->
     In item items -> split eq_char item = [k; v] ->
     Q m -> Q (<[k := PStr v]> m)) ->
  (forall m key items item,
     In key keys -> str_in key attrs = true -> dict_get data key = Some items ->
     In item items -> contains eq_char item = false ->
     Q m -> Q (<[key := PList items]> m)) ->
  (forall m key,
     In key keys -> str_in key attrs = false ->
     Q m -> Q (<[key := pval_of (dict_get data key)]> m)) ->
  forall result result',
    Q result -> flatten_keys data attrs keys result = Ret result' -> Q result'.
Proof.
  induction keys as [|key keys IH]; intros Hkv Hown Hplain result result' HQ; simpl.
  - intros [= <-]. exact HQ.
  - assert (IH' := IH
      (fun m k' its i k v Hk => Hkv m k' its i k v (or_intror Hk))
      (fun m k' its i Hk => Hown m k' its i (or_intror Hk))
      (fun m k' Hk => Hplain m k' (or_intror Hk))).
    destruct (str_in key attrs) eqn:Ha.
    + destruct (dict_get data key) as [items|] eqn:Hg; [|discriminate].
      destruct (flatten_items data key items result) as [r1|e] eqn:Hi; [|discriminate].
      apply IH'.
      apply (flatten_items_inv Q key items) with (result := result); auto.
      * intros m item k v Hin Hs. apply (Hkv m key items item); auto. now left.
      * intros m item Hin Hc. rewrite Hg. simpl.
        apply (Hown m key items item); auto. now left.
    + apply IH'. apply Hplain; auto. now left.
Qed.

(** The inner loop either returns or fails to unpack a value. *)
Lemma flatten_items_outcome (key : string) (items : list string)
    (result : gmap string pval) :
  (exists result', flatten_items data key items result = Ret result') \/
  flatten_items data key items result =
    Raise (ValueError "too many values to unpack").
Proof.
  revert result. induction items as [|item items IH]; intros result; simpl.
  - left. now exists result.
  - destruct (contains eq_char item) eqn:Hc; [|apply IH].
    pose proof (split_length eq_char item) as L.
    rewrite contains_count in Hc.
    destruct (count eq_char item) as [|[|n]] eqn:Hn; [discriminate| |].
    + destruct (split eq_char item) as [|a [|b [|x t]]]; simpl in L; try lia.
      simpl. apply IH.
    + right. rewrite unpack2_many; [reflexivity | lia].
Qed.

(** Without such a value the inner loop returns. *)
Lemma flatten_items_returns (key : string) (items : list string)
    (result : gmap string pval) :
  (forall item, In item items -> count eq_char item <= 1) ->
  exists result', flatten_items data key items result = Ret result'.
Proof.
  intros Hok.
  destruct (flatten_items_outcome key items result) as [H|H]; [exact H|].
  exfalso. revert result H.
  induction items as [|item items IH]; intros result; simpl; [discriminate|].
  assert (Hi : count eq_char item <= 1) by (apply Hok; now left).
  assert (IH' := IH (fun i Hin => Hok i (or_intror Hin))).
  destruct (contains eq_char item) eqn:Hc; [|apply IH'].
  pose proof (split_length eq_char item) as L.
  rewrite contains_count in Hc.
  destruct (count eq_char item) as [|[|n]] eqn:Hn; [discriminate| |lia].
  destruct (split eq_char item) as [|a [|b [|x t]]]; simpl in L; try lia.
  simpl. apply IH'.
Qed.

(** A value with two or more [=] stops the inner loop. *)
Lemma flatten_items_raises (key : string) (items : list string) (item : string)
    (result : gmap string pval) :
  In item items -> 2 <= count eq_char item ->
  flatten_items data key items result =
    Raise (ValueError "too many values to unpack").
Proof.
  intros Hin Hbad. apply in_split in Hin as (xs & ys & ->).
  rewrite flatten_items_app.
  destruct (flatten_items_outcome key xs result) as [[r1 ->]| ->]; [|reflexivity].
  simpl.
  assert (Hc : contains eq_char item = true).
  { rewrite contains_count. destruct (count eq_char item); [lia | reflexivity]. }
  rewrite Hc, unpack2_many; [reflexivity|].
  rewrite split_length. lia.
Qed.

(** And with it the outer loop, when the attribute is composite. *)
Lemma flatten_keys_raises (attrs keys : list string) (key : string)
    (items : list string) (item : string) (result : gmap string pval) :
  (forall k, In k keys -> dict_get data k <> None) ->
  In key keys -> str_in key attrs = true -> dict_get data key = Some items ->
  In item items -> 2 <= count eq_char item ->
  flatten_keys data attrs keys result =
    Raise (ValueError "too many values to unpack").
Proof.
  intros Hdom Hkey Ha Hg Hin Hbad. revert result.
  induction keys as [|k keys IH]; intros result; [destruct Hkey|]. simpl.
  destruct (String.eqb_spec k key) as [->|Hne].
  - rewrite Ha, Hg. now rewrite (flatten_items_raises key items item).
  - assert (Hk : In key keys) by (destruct Hkey; [congruence | assumption]).
    assert (IH' := IH (fun x Hx => Hdom x (or_intror Hx)) Hk).
    destruct (str_in k attrs); [|apply IH'].
    destruct (dict_get data k) as [its|] eqn:Hgk.
    + destruct (flatten_items_outcome k its result) as [[r1 ->]| ->];
        [apply IH' | reflexivity].
    + exfalso. apply (Hdom k); [now left | assumption].
Qed.

(** The outer loop returns when no composite value has two or more [=]. *)
Lemma flatten_keys_returns (attrs keys : list string)
    (result : gmap string pval) :
  (forall k, In k keys -> dict_get data k <> None) ->
  (forall k items item,
     In k keys -> str_in k attrs = true -> dict_get data k = Some items ->
     In item items -> count eq_char item <= 1) ->
  exists result', flatten_keys data attrs keys result = Ret result'.
Proof.
  revert result. induction keys as [|k keys IH]; intros result Hdom Hok; simpl.
  - now exists result.
  - assert (IH' := fun r => IH r (fun x Hx => Hdom x (or_intror Hx))
                     (fun x its i Hx => Hok x its i (or_intror Hx))).
    destruct (str_in k attrs) eqn:Ha; [|apply IH'].
    destruct (dict_get data k) as [items|] eqn:Hg.
    + destruct (flatten_items_returns k items result) as [r1 ->]; [|apply IH'].
      intros item Hin. apply (Hok k items item); auto. now left.
    + exfalso. apply (Hdom k); [now left | assumption].
Qed.

End FlattenFacts.

Section FlattenResults.

Import PillarLdap.

Variable data : attrmap.
Variable attrs : option (list string).



(** What holds of the empty mapping and is kept by every assignment
    holds of the final result. *)
Lemma flatten_always (Q : gmap string pval -> Prop) (result : gmap string pval) :
  (forall m key' items' item' k' v',
     str_in key' (attrs_or_empty attrs) = true -> dict_get data key' = Some items' ->
     In item' items' -> split eq_char item' = [k'; v'] ->
     Q m -> Q (<[k' := PStr v']> m)) ->
  (forall m key' items' item',
     str_in key' (attrs_or_empty attrs) = true -> dict_get data key' = Some items' ->
     In item' items' -> contains eq_char item' = false ->
     Q m -> Q (<[key' := PList items']> m)) ->
  (forall m key',
     In key' (map fst data) -> str_in key' (attrs_or_empty attrs) = false ->
     Q m -> Q (<[key' := pval_of (dict_get data key')]> m)) ->
  Q ∅ ->
  _result_to_dict data attrs = Ret result -> Q result.
Proof.
  intros Hkv Hown Hplain H0. unfold _result_to_dict.
  apply flatten_keys_inv; auto.
  - intros m key' items' item' k' v' _. apply Hkv.
  - intros m key' items' item' _. apply Hown.
Qed.

(** Flattening returns when no composite value has two or more [=]. *)
Lemma flatten_returns :
  splittable data attrs -> exists result, _result_to_dict data attrs = Ret result.
Proof.
  intros Hok. unfold _result_to_dict. apply flatten_keys_returns.
  - intros k Hk. now apply dict_get_keys.
  - intros k items item Hk Ha Hg Hin. apply Hok. exists k, items. auto.
Qed.

End FlattenResults.


Lemma kv_form_split (item k v : string) :
  PillarLdap.kv_form item k v <-> split PillarLdap.eq_char item = [k; v].
Proof.
  unfold PillarLdap.kv_form. split.
  - intros (-> & Hk & Hv). now apply split_around.
  - intros H. now apply split_two in H.
Qed.

Section FlattenClaims.

Import PillarLdap.



End FlattenClaims.

Section FlattenExamples.

Import PillarLdap.

(** Finds the composite value a hypothesis speaks of in a concrete
    attribute mapping. *)
Ltac concrete_value H :=
  let key := fresh "key" in
  let items := fresh "items" in
  let Hl := fresh "Hl" in
  let Hg := fresh "Hg" in
  let Hin := fresh "Hin" in
  destruct H as (key & items & Hl & Hg & Hin);
  apply str_in_In in Hl; simpl in Hl;
  repeat (destruct Hl as [Hl|Hl]; [subst key; simpl in Hg|]);
  [.. | destruct Hl];
  injection Hg as <-; simpl in Hin;
  repeat (destruct Hin as [Hin|Hin]; [subst|]); [.. | destruct Hin].

(** The example of the specification: the composite attribute with
    values [a=1] and [b=2] yields the keys [a] and [b], and no key named
    after the attribute. *)
Example flatten_composite_example :
  exists result,
    _result_to_dict [("saltKeyValue", ["a=1"; "b=2"])] (Some ["saltKeyValue"])
      = Ret result /\
    result !! "a" = Some (PStr "1") /\
    result !! "b" = Some (PStr "2") /\
    result !! "saltKeyValue" = None /\
    dom result = ({["a"; "b"]} : gset string).
Proof.
  eexists. split; [vm_compute; reflexivity|].
  repeat split; reflexivity.
Qed.



(** The example of the specification: [cn: ["Alice"]] stays as it is. *)
Example flatten_plain_example :
  _result_to_dict [("cn", ["Alice"])] None = Ret {["cn" := PList ["Alice"]]}.
Proof. vm_compute. reflexivity. Qed.



End FlattenExamples.

(** ** The pillar source: [_do_search] and [ext_pillar] *)

Section PillarFacts.

Import PillarLdap.

Context {W : Type}.
Variable P : Platform W.

(** [_do_search] with a filter, by the outcome of the search. *)
Lemma do_search_cases (conf : Conf) (flt : string) (st : state W) :
  c_filter conf = Some flt ->
  _do_search P conf st =
  match raw_search P conf flt st with
  | (Raise e, st1) => (Ret ∅, reported e st1)
  | (Ret [], st1) => (Raise (UnboundLocalError "result"), st1)
  | (Ret (a :: data), st1) =>
      (_result_to_dict (a :: data) (c_attrs conf), st1)
  end.
Proof.
  intros Hf. unfold _do_search, bind, attempt, ret, raise, lift, _config.
  rewrite Hf.
  destruct (raw_search P conf flt st) as [[[|a data]|e] st1]; try reflexivity.
  destruct (_result_to_dict (a :: data) (c_attrs conf)); reflexivity.
Qed.

(** The search, when [ldap.search] is there and answers. *)
Lemma raw_search_answer (conf : Conf) (flt : string) (st : state W)
    (search : search_fn W) (reply : SearchReply) (w1 : W) :
  salt_ldap_search P = Some search ->
  search flt (c_dn conf) (c_scope conf) (c_attrs conf) (conf_connargs conf)
    (world st) = (Ret reply, w1) ->
  exists tr,
    raw_search P conf flt st =
    (match results reply with
     | Some (first :: _) => Ret (snd first)
     | Some [] => Raise IndexError
     | None => Raise (KeyError "results")
     end, mkState w1 tr).
Proof.
  intros Hs Hr. eexists.
  unfold raw_search, salt_call_search, bind, extern, lift, ret, _config.
  rewrite Hs, Hr.
  destruct (results reply) as [[|first rest]|]; reflexivity.
Qed.

(** One round of the loop of [ext_pillar]. *)
Lemma pillar_loop_step (opts : Opts) (source : string) (rest : list string)
    (data : gmap string pval) (conf : Conf) (st : state W) :
  opts_getitem opts source = Ret (OSpec conf) ->
  pillar_loop P opts (source :: rest) data st =
  match _do_search P conf st with
  | (Ret result, st1) =>
      pillar_loop P opts rest
        (if dict_truthy result then dict_update data result else data) st1
  | (Raise e, st1) => (Raise e, st1)
  end.
Proof.
  intros Hc. simpl. unfold bind at 1. unfold lift at 1. rewrite Hc.
  unfold bind at 1. reflexivity.
Qed.

(** The loop runs through a concatenation one part after the other. *)
Lemma pillar_loop_app (opts : Opts) (xs ys : list string) :
  forall (data : gmap string pval) (st : state W),
    pillar_loop P opts (xs ++ ys)%list data st =
    match pillar_loop P opts xs data st with
    | (Ret data', st') => pillar_loop P opts ys data' st'
    | (Raise e, st') => (Raise e, st')
    end.
Proof.
  induction xs as [|source xs IH]; intros data st; simpl; [reflexivity|].
  unfold bind, lift.
  destruct (opts_getitem opts source) as [config|]; [|reflexivity].
  destruct (do_search_item P config st) as [[result|e] st1]; [|reflexivity].
  apply IH.
Qed.

(** C6.  A search specification without a [filter] key makes
    [_do_search] fail on the name [SaltInvocationError], which the module
    never imports, before any search is made; the error with the message
    [missing filter] is not what is raised. *)
Theorem do_search_missing_filter (conf : Conf) (st : state W) :
  c_filter conf = None ->
  _do_search P conf st = (Raise (NameError "SaltInvocationError"), st) /\
  fst (_do_search P conf st) <> Raise (SaltInvocationError "missing filter").
Proof.
  intros Hf.
  assert (E : _do_search P conf st = (Raise (NameError "SaltInvocationError"), st)).
  { unfold _do_search, bind, lift. rewrite Hf. reflexivity. }
  split; [exact E|]. rewrite E. simpl. discriminate.
Qed.

(** C5.  For a path that is not a file, [ext_pillar] logs the missing
    file and then fails on the unbound local [opts]; it returns no
    mapping. *)
Theorem ext_pillar_missing_file (config_file : string) (st : state W) :
  os_path_isfile P config_file (world st) = false ->
  ext_pillar P config_file st =
    (Raise (UnboundLocalError "opts"),
     mkState (world st)
       (trace st ++ [EvLog "debug"
                       ("Missing configuration file: " ++ config_file)])).
Proof.
  intros Hf. unfold ext_pillar, bind. rewrite Hf. reflexivity.
Qed.

(** C7.  When the search of a source raises, [_do_search] reports the
    exception and returns the empty mapping, and the loop of [ext_pillar]
    goes on with the remaining sources and the data it had. *)
Theorem do_search_failure_is_empty (conf : Conf) (flt : string) (e : exn)
    (st st1 : state W) :
  c_filter conf = Some flt ->
  raw_search P conf flt st = (Raise e, st1) ->
  _do_search P conf st = (Ret ∅, reported e st1) /\
  forall (opts : Opts) (before : list string) (source : string)
         (rest : list string) (data0 data : gmap string pval) (st0 : state W),
    opts_getitem opts source = Ret (OSpec conf) ->
    pillar_loop P opts before data0 st0 = (Ret data, st) ->
    pillar_loop P opts (before ++ source :: rest)%list data0 st0 =
    pillar_loop P opts rest data (reported e st1).
Proof.
  intros Hf Hr.
  assert (E : _do_search P conf st = (Ret ∅, reported e st1)).
  { rewrite (do_search_cases conf flt st Hf), Hr. reflexivity. }
  split; [exact E|].
  intros opts before source rest data0 data st0 Hc Hb.
  rewrite pillar_loop_app, Hb.
  rewrite (pillar_loop_step opts source rest data conf st Hc), E.
  reflexivity.
Qed.

(** C9.  When the search succeeds and the first entry found has no
    attributes, [_do_search] fails on the unbound local [result]. *)
Theorem do_search_empty_entry (conf : Conf) (flt : string) (st : state W)
    (search : search_fn W) (reply : SearchReply) (w1 : W)
    (dn : string) (more : list entry) :
  c_filter conf = Some flt ->
  salt_ldap_search P = Some search ->
  search flt (c_dn conf) (c_scope conf) (c_attrs conf) (conf_connargs conf)
    (world st) = (Ret reply, w1) ->
  results reply = Some ((dn, []) :: more) ->
  exists tr,
    _do_search P conf st = (Raise (UnboundLocalError "result"), mkState w1 tr).
Proof.
  intros Hf Hs Hr Hres.
  destruct (raw_search_answer conf flt st search reply w1 Hs Hr) as [tr Htr].
  exists tr. rewrite (do_search_cases conf flt st Hf), Htr, Hres. reflexivity.
Qed.


End PillarFacts.

(** ** Merging the sources *)

Section MergeFacts.

Import PillarLdap.

Lemma dict_update_guard (data result : gmap string pval) :
  (if dict_truthy result then dict_update data result else data)
  = dict_update data result.
Proof.
  unfold dict_truthy, dict_update. case_bool_decide as E; simpl; [|reflexivity].
  subst result. now rewrite (left_id_L ∅ (∪)).
Qed.





Context {W : Type}.
Variable P : Platform W.

(** The loop of [ext_pillar] is the merge of what the searches return. *)
Lemma pillar_loop_search_all (opts : Opts) (order : list string) :
  forall (data : gmap string pval) (st : state W),
    pillar_loop P opts order data st =
    match search_all P opts order st with
    | (Ret found, st') => (Ret (merge_all data found), st')
    | (Raise e, st') => (Raise e, st')
    end.
Proof.
  induction order as [|source rest IH]; intros data st; simpl; [reflexivity|].
  unfold bind, lift, ret.
  destruct (opts_getitem opts source) as [config|]; [|reflexivity].
  destruct (do_search_item P config st) as [[result|e] st1]; [|reflexivity].
  rewrite IH, dict_update_guard.
  destruct (search_all P opts rest st1) as [[found|e] st2]; reflexivity.
Qed.



(** When the configuration file is there and parses, [ext_pillar] is
    that loop, started from the empty mapping. *)
Lemma ext_pillar_loaded (config_file : string) (st : state W) (w1 w2 : W)
    (text : string) (opts : Opts) (order : list string) :
  os_path_isfile P config_file (world st) = true ->
  open_read P config_file (world st) = (Ret tt, w1) ->
  jinja_render_file P config_file w1 = (Ret text, w2) ->
  text <> EmptyString ->
  yaml_safe_load P text = Ret (Some opts) ->
  search_order opts = Some order ->
  ext_pillar P config_file st =
  pillar_loop P
    {| search_order := Some order; sources := sources opts;
       conf_file := Some config_file |}
    order ∅
    (mkState w2 ((trace st ++ [EvCall "open" [config_file]])
                 ++ [EvCall "jinja2.render" [config_file]])).
Proof.
  intros Hf Ho Hr Ht Hy Hord.
  unfold ext_pillar, bind, attempt, _render_template, extern, lift, ret.
  rewrite Hf, Ho. simpl. rewrite Hr.
  destruct text as [|ch text]; [congruence|].
  rewrite Hy. simpl. rewrite Hord. reflexivity.
Qed.

End MergeFacts.

(** ** The authenticator *)

Lemma calls_of_app (fn : string) (xs ys : list event) :
  calls_of fn (xs ++ ys)%list = calls_of fn xs + calls_of fn ys.
Proof. unfold calls_of. now rewrite List.filter_app, length_app. Qed.

Section AuthFacts.

Import AuthLdap.

Context {W Conn : Type}.
Variable lib : LdapLib W Conn.
Variable jinja_render : string -> string -> res string.
Variable opts : Opts.

(** Runs the calls of [_LDAPConnection] one after the other. *)
Ltac run_connection :=
  unfold _LDAPConnection, bind, attempt, extern, ret, raise; simpl;
  repeat match goal with
         | |- context [ldap_initialize lib ?u ?w] =>
             destruct (ldap_initialize lib u w) as [[?|?] ?]; simpl
         | |- context [ldap_set_protocol_version lib ?h ?v ?w] =>
             destruct (ldap_set_protocol_version lib h v w) as [[?|?] ?]; simpl
         | |- context [ldap_set_option lib ?h ?o ?v ?w] =>
             destruct (ldap_set_option lib h o v w) as [[?|?] ?]; simpl
         | |- context [ca_tls ?c] => destruct (ca_tls c); simpl
         | |- context [ldap_start_tls_s lib ?h ?w] =>
             destruct (ldap_start_tls_s lib h w) as [[?|?] ?]; simpl
         | |- context [ldap_simple_bind_s lib ?h ?d ?p ?w] =>
             destruct (ldap_simple_bind_s lib h d p w) as [[?|?] ?]; simpl
         end.

(** Whether a connection is made depends on the world alone, and so
    does the world it leaves. *)
Lemma connection_world (c : ConnArgs) (w : W) (tr tr' : list event) :
  fst (_LDAPConnection lib c (mkState w tr)) =
  fst (_LDAPConnection lib c (mkState w tr')) /\
  world (snd (_LDAPConnection lib c (mkState w tr))) =
  world (snd (_LDAPConnection lib c (mkState w tr'))).
Proof. run_connection; split; reflexivity. Qed.

(** A connection that is made has bound once. *)
Lemma connection_binds_once (c : ConnArgs) (st st1 : state W) (conn : Conn) :
  _LDAPConnection lib c st = (Ret conn, st1) ->
  calls_of "simple_bind_s" (trace st1) = S (calls_of "simple_bind_s" (trace st))
  /\ calls_of "ldap.initialize" (trace st1)
     = S (calls_of "ldap.initialize" (trace st)).
Proof.
  run_connection; intros H;
    (discriminate H ||
     (injection H as <- <-; simpl; rewrite !calls_of_app;
      unfold calls_of; simpl; split; lia)).
Qed.

(** [auth] up to the answer of the search. *)
Lemma auth_after_search (username password flt : string) (st st1 : state W)
    (conn : Conn) (found : list entry) (w2 : W) :
  jinja_render (filter opts) username = Ret flt ->
  _LDAPConnection lib (service_connargs opts) st = (Ret conn, st1) ->
  ldap_search_s lib conn (basedn opts) (scope opts) flt (world st1)
    = (Ret found, w2) ->
  exists tr2,
    calls_of "simple_bind_s" tr2 = calls_of "simple_bind_s" (trace st1) /\
    calls_of "ldap.initialize" tr2 = calls_of "ldap.initialize" (trace st1) /\
    auth lib jinja_render opts username password st =
    match found with
    | [] =>
        (Ret false,
         mkState w2 (tr2 ++ [EvLog "warn" ("Unable to find user " ++ username)]))
    | [(authdn, _)] =>
        let st3 := mkState w2
          (tr2 ++ [EvLog "debug"
                     ("Attempting LDAP bind with user dn: " ++ authdn)]) in
        match _LDAPConnection lib (user_connargs opts authdn password) st3 with
        | (Ret _, st4) =>
            (Ret true,
             mkState (world st4)
               (trace st4 ++
                [EvLog "debug"
                   ("Successfully authenticated user dn via LDAP: " ++ authdn)]))
        | (Raise _, st4) =>
            (Ret false,
             mkState (world st4)
               (trace st4 ++
                [EvLog "warn"
                   ("Failed to authenticate user dn via LDAP: " ++ authdn)]))
        end
    | _ :: _ :: _ =>
        (Ret false,
         mkState w2
           (tr2 ++ [EvLog "warn"
                      ("Found multiple results for user " ++ username)]))
    end.
Proof.
  intros Hr Hc Hs. eexists. split; [|split]; cycle 2.
  - unfold auth, _render_template. unfold bind at 1. unfold lift. rewrite Hr.
    unfold bind at 1. rewrite Hc.
    unfold bind at 1, log at 1. unfold bind at 1, extern at 1. simpl.
    rewrite Hs.
    destruct found as [|[authdn attrs] [|second more]]; simpl.
    + reflexivity.
    + unfold bind at 1, log at 1, bind at 1, attempt. simpl.
      destruct (_LDAPConnection lib (user_connargs opts authdn password) _)
        as [[c|e] st4]; reflexivity.
    + reflexivity.
  - simpl. rewrite !calls_of_app. unfold calls_of. simpl. lia.
  - simpl. rewrite !calls_of_app. unfold calls_of. simpl. lia.
Qed.

(** A connection is made exactly when each call of the constructor
    succeeds, in its order, the bind with the name and the password of
    the connection arguments last. *)
Lemma connection_steps (c : ConnArgs) (w : W) (tr : list event) :
  (exists conn s, _LDAPConnection lib c (mkState w tr) = (Ret conn, s)) <->
  (exists conn wa wb wc wd we,
     ldap_initialize lib ("ldap://" ++ ca_server c ++ ":" ++ ca_port c) w
       = (Ret conn, wa) /\
     ldap_set_protocol_version lib conn 3 wa = (Ret tt, wb) /\
     ldap_set_option lib conn "OPT_REFERRALS" 0 wb = (Ret tt, wc) /\
     (if ca_tls c then ldap_start_tls_s lib conn wc = (Ret tt, wd)
      else wd = wc) /\
     ldap_simple_bind_s lib conn (ca_binddn c) (ca_bindpw c) wd = (Ret tt, we)).
Proof.
  unfold _LDAPConnection, bind, attempt, extern, ret, raise. simpl. split.
  - destruct (ldap_initialize lib _ w) as [[conn|e] wa] eqn:H1; simpl;
      [|intros (? & ? & [=])].
    destruct (ldap_set_protocol_version lib conn 3 wa) as [[[]|e] wb] eqn:H2;
      simpl; [|intros (? & ? & [=])].
    destruct (ldap_set_option lib conn "OPT_REFERRALS" 0 wb)
      as [[[]|e] wc] eqn:H3; simpl; [|intros (? & ? & [=])].
    destruct (ca_tls c) eqn:Htls; simpl.
    + destruct (ldap_start_tls_s lib conn wc) as [[[]|e] wd] eqn:H4; simpl;
        [|intros (? & ? & [=])].
      destruct (ldap_simple_bind_s lib conn (ca_binddn c) (ca_bindpw c) wd)
        as [[[]|e] we] eqn:H5; simpl; [|intros (? & ? & [=])].
      intros _. exists conn, wa, wb, wc, wd, we. auto.
    + destruct (ldap_simple_bind_s lib conn (ca_binddn c) (ca_bindpw c) wc)
        as [[[]|e] we] eqn:H5; simpl; [|intros (? & ? & [=])].
      intros _. exists conn, wa, wb, wc, wc, we. auto.
  - intros (conn & wa & wb & wc & wd & we & H1 & H2 & H3 & H4 & H5).
    rewrite H1. simpl. rewrite H2. simpl. rewrite H3. simpl.
    destruct (ca_tls c); simpl.
    + rewrite H4. simpl. rewrite H5. simpl. eauto.
    + subst wd. rewrite H5. simpl. eauto.
Qed.

(** C1.  When the search finds exactly one entry, [auth] returns, and it
    returns true exactly when, in the world the search left, the calls of
    a connection to the configured server succeed one after the other,
    the last of them [simple_bind_s] with the name of the entry found and
    the password given; it returns false, and does not raise, when that
    bind or any call before it raises.  The same holds of the run of
    [_LDAPConnection] with these arguments. *)
Theorem auth_single_match (username password flt : string) (st st1 : state W)
    (conn : Conn) (authdn : string) (attrs : odict (list string)) (w2 : W) :
  jinja_render (filter opts) username = Ret flt ->
  _LDAPConnection lib (service_connargs opts) st = (Ret conn, st1) ->
  ldap_search_s lib conn (basedn opts) (scope opts) flt (world st1)
    = (Ret [(authdn, attrs)], w2) ->
  exists (b : bool) (st' : state W),
    auth lib jinja_render opts username password st = (Ret b, st') /\
    (b = true <->
     exists conn' wa wb wc wd we,
       ldap_initialize lib ("ldap://" ++ server opts ++ ":" ++ port opts) w2
         = (Ret conn', wa) /\
       ldap_set_protocol_version lib conn' 3 wa = (Ret tt, wb) /\
       ldap_set_option lib conn' "OPT_REFERRALS" 0 wb = (Ret tt, wc) /\
       (if tls opts then ldap_start_tls_s lib conn' wc = (Ret tt, wd)
        else wd = wc) /\
       ldap_simple_bind_s lib conn' authdn password wd = (Ret tt, we)) /\
    (forall conn' wa wb wc wd e we,
       ldap_initialize lib ("ldap://" ++ server opts ++ ":" ++ port opts) w2
         = (Ret conn', wa) ->
       ldap_set_protocol_version lib conn' 3 wa = (Ret tt, wb) ->
       ldap_set_option lib conn' "OPT_REFERRALS" 0 wb = (Ret tt, wc) ->
       (if tls opts then ldap_start_tls_s lib conn' wc = (Ret tt, wd)
        else wd = wc) ->
       ldap_simple_bind_s lib conn' authdn password wd = (Raise e, we) ->
       b = false) /\
    forall tr : list event,
      let rebind := _LDAPConnection lib (user_connargs opts authdn password)
                      (mkState w2 tr) in
      (b = true <-> exists c s, rebind = (Ret c, s)) /\
      (forall e s, rebind = (Raise e, s) -> b = false).
Proof.
  intros Hr Hc Hs.
  destruct (auth_after_search username password flt st st1 conn _ w2 Hr Hc Hs)
    as (tr2 & _ & _ & ->).
  cbv zeta.
  pose proof (connection_steps (user_connargs opts authdn password) w2
                (tr2 ++ [EvLog "debug"
                           ("Attempting LDAP bind with user dn: " ++ authdn)]))
    as Hsteps.
  simpl in Hsteps.
  assert (Hall : forall tr,
            fst (_LDAPConnection lib (user_connargs opts authdn password)
                   (mkState w2 tr)) =
            fst (_LDAPConnection lib (user_connargs opts authdn password)
                   (mkState w2
                      (tr2 ++ [EvLog "debug"
                                 ("Attempting LDAP bind with user dn: "
                                  ++ authdn)])))).
  { intros tr. apply connection_world. }
  destruct (_LDAPConnection lib (user_connargs opts authdn password)
              (mkState w2 (tr2 ++ _))) as [[c|e] st4] eqn:E.
  - exists true. eexists. split; [reflexivity|].
    assert (Hchain := proj1 Hsteps (ex_intro _ c (ex_intro _ st4 eq_refl))).
    split; [|split].
    + split; [intros _; exact Hchain | reflexivity].
    + intros conn' wa wb wc wd e we H1 H2 H3 H4 H5. exfalso.
      destruct Hchain as (c0 & a0 & b0 & c1 & d0 & e0 & G1 & G2 & G3 & G4 & G5).
      rewrite H1 in G1. injection G1 as <- <-.
      rewrite H2 in G2. injection G2 as <-.
      rewrite H3 in G3. injection G3 as <-.
      destruct (tls opts).
      * rewrite H4 in G4. injection G4 as <-. congruence.
      * subst. congruence.
    + intros tr. specialize (Hall tr). simpl in Hall.
      destruct (_LDAPConnection lib (user_connargs opts authdn password)
                  (mkState w2 tr)) as [[c'|e'] s'];
        simpl in Hall; try discriminate. split.
      * split; eauto.
      * discriminate.
  - exists false. eexists. split; [reflexivity|].
    assert (Hno : ~ exists conn' s,
                    (Raise e, st4) = (@Ret Conn conn', s)).
    { intros (? & ? & [=]). }
    split; [|split].
    + split; [discriminate|]. intros Hchain. exfalso. apply Hno.
      apply (proj2 Hsteps Hchain).
    + reflexivity.
    + intros tr. specialize (Hall tr). simpl in Hall.
      destruct (_LDAPConnection lib (user_connargs opts authdn password)
                  (mkState w2 tr)) as [[c'|e'] s'];
        simpl in Hall; try discriminate. split.
      * split; [discriminate | intros (c & s & [=])].
      * reflexivity.
Qed.

(** C2.  When the search finds no entry, or more than one, [auth]
    returns false, leaves the world as the search left it, and has bound
    once only, with the configured account. *)
Theorem auth_no_single_match (username password flt : string)
    (st st1 : state W) (conn : Conn) (found : list entry) (w2 : W) :
  jinja_render (filter opts) username = Ret flt ->
  _LDAPConnection lib (service_connargs opts) st = (Ret conn, st1) ->
  ldap_search_s lib conn (basedn opts) (scope opts) flt (world st1)
    = (Ret found, w2) ->
  length found <> 1 ->
  exists st' : state W,
    auth lib jinja_render opts username password st = (Ret false, st') /\
    world st' = w2 /\
    calls_of "simple_bind_s" (trace st')
      = S (calls_of "simple_bind_s" (trace st)) /\
    calls_of "ldap.initialize" (trace st')
      = S (calls_of "ldap.initialize" (trace st)).
Proof.
  intros Hr Hc Hs Hlen.
  destruct (auth_after_search username password flt st st1 conn found w2 Hr Hc Hs)
    as (tr2 & Hb & Hi & ->).
  destruct (connection_binds_once _ _ _ _ Hc) as [Hb1 Hi1].
  destruct found as [|[authdn attrs] [|second more]]; simpl in Hlen;
    [|congruence|];
    eexists; (split; [reflexivity|]); simpl; rewrite !calls_of_app;
    rewrite Hb, Hi, Hb1, Hi1; unfold calls_of; simpl; repeat split; lia.
Qed.

End AuthFacts.

(** ** The code at work on the small directory *)

Section Runs.

Import PillarLdap Demo.

(** The end-to-end example of the specification. *)
Example ext_pillar_example :
  fst (ext_pillar (demo_platform "ntp") config_path start)
  = Ret {["ntpserver" := PStr "ntp.acme.local"]}.
Proof. vm_compute. reflexivity. Qed.

Lemma ext_pillar_missing_file_witness :
  ext_pillar three_sources "/srv/missing.yaml" start =
    (Raise (UnboundLocalError "opts"),
     mkState 0 [EvLog "debug" "Missing configuration file: /srv/missing.yaml"]).
Proof.
  apply (ext_pillar_missing_file three_sources "/srv/missing.yaml" start). reflexivity.
Defined.

Lemma do_search_missing_filter_witness :
  _do_search three_sources no_filter start = (Raise (NameError "SaltInvocationError"), start)
  /\ fst (_do_search three_sources no_filter start)
     <> Raise (SaltInvocationError "missing filter").
Proof.
  apply (do_search_missing_filter three_sources no_filter start). reflexivity.
Defined.

Lemma do_search_failure_is_empty_witness :
  let e := LDAPError "Can't contact LDAP server" in
  let st1 := mkState 1
               [EvCall "ldap.search" ["(cn=down)"; "ou=hosts,o=acme"; "2"]] in
  _do_search three_sources (source "(cn=down)") start = (Ret ∅, reported e st1) /\
  forall (opts : Opts) (before : list string) (name : string)
         (rest : list string) (data0 data : gmap string pval)
         (st0 : state nat),
    opts_getitem opts name = Ret (OSpec (source "(cn=down)")) ->
    pillar_loop three_sources opts before data0 st0 = (Ret data, start) ->
    pillar_loop three_sources opts (before ++ name :: rest)%list data0 st0 =
    pillar_loop three_sources opts rest data (reported e st1).
Proof.
  intros e st1.
  apply (do_search_failure_is_empty three_sources (source "(cn=down)") "(cn=down)" e
           start st1); reflexivity.
Defined.

(** The fetch goes on after the source that is down. *)
Example ext_pillar_skips_failed_source :
  fst (ext_pillar (demo_platform ("ntp" ++ lf ++ "down" ++ lf ++ "site"))
         config_path start)
  = Ret (<["dns" := PStr "10.0.0.1"]> {["ntpserver" := PStr "ntp.site.local"]}).
Proof. vm_compute. reflexivity. Qed.

Lemma do_search_empty_entry_witness :
  exists tr,
    _do_search three_sources (source "(cn=bare)") start =
      (Raise (UnboundLocalError "result"), mkState 1 tr).
Proof.
  apply (do_search_empty_entry three_sources (source "(cn=bare)") "(cn=bare)" start
           demo_search {| results := Some [("cn=bare,o=acme", [])] |} 1
           "cn=bare,o=acme" []); reflexivity.
Defined.


(** The whole fetch is lost with it, the results of the sources before
    it included. *)
Example ext_pillar_aborted_by_value :
  fst (ext_pillar (demo_platform ("ntp" ++ lf ++ "url" ++ lf ++ "site"))
         config_path start)
  = Raise (ValueError "too many values to unpack").
Proof. vm_compute. reflexivity. Qed.


(** Three sources searched in the order [ntp], [site], [global] each
    give a value for [ntpserver]; the final value is the one of
    [global], the last of them. *)
Example ext_pillar_last_of_three :
  (forall st, exists r,
     fst (_do_search three_sources (source "(cn=host1)") st) = Ret r /\
     r !! "ntpserver" = Some (PStr "ntp.acme.local")) /\
  (forall st, exists r,
     fst (_do_search three_sources (source "(cn=site)") st) = Ret r /\
     r !! "ntpserver" = Some (PStr "ntp.site.local")) /\
  exists final,
    fst (ext_pillar three_sources config_path start) = Ret final /\
    final !! "ntpserver" = Some (PStr "ntp.global").
Proof.
  split; [|split].
  - intros [w tr]. eexists. split; [vm_compute; reflexivity | reflexivity].
  - intros [w tr]. eexists. split; [vm_compute; reflexivity | reflexivity].
  - eexists. split; [vm_compute; reflexivity | reflexivity].
Qed.

(** The authenticator: a good and a bad password, as in the
    specification. *)
Example auth_example :
  fst (AuthLdap.auth demo_lib demo_render AuthLdap.default_opts
         "alice@x.com" "secret" start) = Ret true /\
  fst (AuthLdap.auth demo_lib demo_render AuthLdap.default_opts
         "alice@x.com" "guess" start) = Ret false.
Proof. split; vm_compute; reflexivity. Qed.

Lemma auth_single_match_witness :
  fst (AuthLdap.auth demo_lib demo_render AuthLdap.default_opts
         "alice@x.com" "secret" start) = Ret true /\
  fst (AuthLdap.auth demo_lib demo_render AuthLdap.default_opts
         "alice@x.com" "guess" start) = Ret false.
Proof.
  split.
  - edestruct (auth_single_match demo_lib demo_render AuthLdap.default_opts
                 "alice@x.com" "secret" "emailAddress=alice@x.com" start)
      as (b & st' & Hrun & Hiff & _); [reflexivity | reflexivity | reflexivity |].
    rewrite Hrun. simpl. f_equal. apply Hiff.
    exists "ldap://localhost:389", 1, 1, 1, 1, 2. repeat split.
  - edestruct (auth_single_match demo_lib demo_render AuthLdap.default_opts
                 "alice@x.com" "guess" "emailAddress=alice@x.com" start)
      as (b & st' & Hrun & _ & Hraise & _);
      [reflexivity | reflexivity | reflexivity |].
    rewrite Hrun. simpl. f_equal.
    apply (Hraise "ldap://localhost:389" 1 1 1 1
             (LDAPError "Invalid credentials") 2); reflexivity.
Defined.

Lemma auth_no_single_match_witness :
  exists st' : state nat,
    AuthLdap.auth demo_lib demo_render AuthLdap.default_opts
      "team@x.com" "secret" start = (Ret false, st') /\
    world st' = 1 /\
    calls_of "simple_bind_s" (trace st') = 1 /\
    calls_of "ldap.initialize" (trace st') = 1.
Proof.
  eapply (auth_no_single_match demo_lib demo_render AuthLdap.default_opts
            "team@x.com" "secret" "emailAddress=team@x.com" start);
    [reflexivity | reflexivity | reflexivity | simpl; lia].
Defined.

End Runs.

(** * Further properties of the code *)

(** ** The calls of the authenticator *)

Lemma calls_of_firstn (fn : string) (n : nat) (tr : list event) :
  calls_of fn (firstn n tr) <= calls_of fn tr.
Proof.
  unfold calls_of. revert n. induction tr as [|ev tr IH]; intros [|n]; simpl;
    try lia.
  specialize (IH n). destruct (is_call fn ev); simpl; lia.
Qed.

Section AuthCalls.

Import AuthLdap.

Context {W Conn : Type}.
Variable lib : LdapLib W Conn.
Variable jinja_render : string -> string -> res string.
Variable opts : Opts.

Ltac step_connection :=
  unfold _LDAPConnection, bind, attempt, extern, ret, raise; simpl;
  repeat match goal with
         | |- context [ldap_initialize lib ?u ?w] =>
             destruct (ldap_initialize lib u w) as [[?|?] ?]; simpl
         | |- context [ldap_set_protocol_version lib ?h ?v ?w] =>
             destruct (ldap_set_protocol_version lib h v w) as [[?|?] ?]; simpl
         | |- context [ldap_set_option lib ?h ?o ?v ?w] =>
             destruct (ldap_set_option lib h o v w) as [[?|?] ?]; simpl
         | |- context [ca_tls ?c] => destruct (ca_tls c); simpl
         | |- context [ldap_start_tls_s lib ?h ?w] =>
             destruct (ldap_start_tls_s lib h w) as [[?|?] ?]; simpl
         | |- context [ldap_simple_bind_s lib ?h ?d ?p ?w] =>
             destruct (ldap_simple_bind_s lib h d p w) as [[?|?] ?]; simpl
         end.

(** What a connection leaves in the trace is a beginning of
    [connection_calls]: all of it when the connection is made, and
    otherwise the exception is [bind_failure]. *)
Lemma connection_outcome (c : ConnArgs) (st : state W) :
  exists n : nat,
    1 <= n /\
    trace (snd (_LDAPConnection lib c st))
      = (trace st ++ firstn n (connection_calls c))%list /\
    (forall conn, fst (_LDAPConnection lib c st) = Ret conn ->
       n = length (connection_calls c)) /\
    (forall e, fst (_LDAPConnection lib c st) = Raise e -> e = bind_failure c).
Proof.
  unfold connection_calls, bind_failure. step_connection;
    rewrite <- ?app_assoc; simpl;
    first [ exists 1; simpl; repeat split; (lia || discriminate || congruence)
          | exists 2; simpl; repeat split; (lia || discriminate || congruence)
          | exists 3; simpl; repeat split; (lia || discriminate || congruence)
          | exists 4; simpl; repeat split; (lia || discriminate || congruence)
          | exists 5; simpl; repeat split; (lia || discriminate || congruence) ].
Qed.

(** [auth], by the outcomes of the template, of the first connection and
    of the search. *)
Lemma auth_run (username password : string) (st : state W) :
  auth lib jinja_render opts username password st =
  match jinja_render (filter opts) username with
  | Raise e => (Raise e, st)
  | Ret flt =>
      match _LDAPConnection lib (service_connargs opts) st with
      | (Raise e, st1) => (Raise e, st1)
      | (Ret conn, st1) =>
          let tr2 := (trace st1 ++ search_events opts flt)%list in
          match ldap_search_s lib conn (basedn opts) (scope opts) flt
                  (world st1) with
          | (Raise e, w2) => (Raise e, mkState w2 tr2)
          | (Ret [], w2) =>
              (Ret false,
               mkState w2
                 (tr2 ++ [EvLog "warn" ("Unable to find user " ++ username)]))
          | (Ret [(authdn, _)], w2) =>
              match _LDAPConnection lib (user_connargs opts authdn password)
                      (mkState w2
                         (tr2 ++ [EvLog "debug"
                                    ("Attempting LDAP bind with user dn: "
                                     ++ authdn)])) with
              | (Ret _, st4) =>
                  (Ret true,
                   mkState (world st4)
                     (trace st4 ++
                      [EvLog "debug"
                         ("Successfully authenticated user dn via LDAP: "
                          ++ authdn)]))
              | (Raise _, st4) =>
                  (Ret false,
                   mkState (world st4)
                     (trace st4 ++
                      [EvLog "warn"
                         ("Failed to authenticate user dn via LDAP: "
                          ++ authdn)]))
              end
          | (Ret (_ :: _ :: _), w2) =>
              (Ret false,
               mkState w2
                 (tr2 ++ [EvLog "warn"
                            ("Found multiple results for user " ++ username)]))
          end
      end
  end.
Proof.
  unfold auth, _render_template, search_events. unfold bind at 1. unfold lift.
  destruct (jinja_render (filter opts) username) as [flt|e]; [|reflexivity].
  unfold bind at 1.
  destruct (_LDAPConnection lib (service_connargs opts) st) as [[conn|e] st1];
    [|reflexivity].
  unfold bind at 1, log at 1. unfold bind at 1, extern at 1. simpl.
  destruct (ldap_search_s lib conn (basedn opts) (scope opts) flt (world st1))
    as [[found|e] w2]; [|now rewrite <- app_assoc].
  rewrite <- app_assoc. simpl.
  destruct found as [|[authdn attrs] [|second more]]; simpl; try reflexivity.
  unfold bind at 1, log at 1, bind at 1, attempt. simpl.
  destruct (_LDAPConnection lib (user_connargs opts authdn password) _)
    as [[c|e] st4]; reflexivity.
Qed.

Lemma connection_calls_count (c : ConnArgs) :
  calls_of "simple_bind_s" (connection_calls c) = 1 /\
  calls_of "ldap.initialize" (connection_calls c) = 1 /\
  calls_of "start_tls_s" (connection_calls c) = (if ca_tls c then 1 else 0) /\
  calls_of "search_s" (connection_calls c) = 0.
Proof. unfold connection_calls. destruct (ca_tls c); repeat split. Qed.

(** A connection adds at most its own calls to the trace. *)
Lemma connection_adds (fn : string) (c : ConnArgs) (st : state W) :
  calls_of fn (trace (snd (_LDAPConnection lib c st)))
  <= calls_of fn (trace st) + calls_of fn (connection_calls c).
Proof.
  destruct (connection_outcome c st) as (n & _ & -> & _).
  rewrite calls_of_app. pose proof (calls_of_firstn fn n (connection_calls c)).
  lia.
Qed.

(** A connection that is made leaves all its calls in the trace. *)
Lemma connection_made (c : ConnArgs) (st st1 : state W) (conn : Conn) :
  _LDAPConnection lib c st = (Ret conn, st1) ->
  trace st1 = (trace st ++ connection_calls c)%list.
Proof.
  intros H. destruct (connection_outcome c st) as (n & _ & Ht & Hn & _).
  rewrite H in Ht, Hn. specialize (Hn conn eq_refl). subst n.
  rewrite firstn_all in Ht. exact Ht.
Qed.


(** X2.  The constructor of [_LDAPConnection] makes its calls in one
    order: [ldap.initialize], the protocol version, [set_option],
    [start_tls_s] when TLS is asked for, [simple_bind_s].  What it leaves
    in the trace is a beginning of that sequence, the whole of it when it
    returns; when it raises, it raises [bind_failure]. *)
Theorem connection_call_order (c : ConnArgs) (st : state W) :
  exists n : nat,
    1 <= n /\
    trace (snd (_LDAPConnection lib c st))
      = (trace st ++ firstn n (connection_calls c))%list /\
    (forall conn, fst (_LDAPConnection lib c st) = Ret conn ->
       n = length (connection_calls c)) /\
    (forall e, fst (_LDAPConnection lib c st) = Raise e -> e = bind_failure c).
Proof.
  unfold connection_calls, bind_failure. step_connection;
    rewrite <- ?app_assoc; simpl;
    first [ exists 1; simpl; repeat split; (lia || discriminate || congruence)
          | exists 2; simpl; repeat split; (lia || discriminate || congruence)
          | exists 3; simpl; repeat split; (lia || discriminate || congruence)
          | exists 4; simpl; repeat split; (lia || discriminate || congruence)
          | exists 5; simpl; repeat split; (lia || discriminate || congruence) ].
Qed.


(** X4.  When [auth] returns true, the search has found one entry, and
    the trace of the call is, in this order: the calls of a connection
    to the configured server that binds with the configured name and
    password, the search, the calls of a connection to the same server
    that binds with the name of the entry found and the password given,
    and the record of the success; and that last bind was accepted. *)
Theorem auth_true_trace (username password : string) (st st' : state W) :
  auth lib jinja_render opts username password st = (Ret true, st') ->
  exists flt conn st1 authdn attrs w2,
    jinja_render (filter opts) username = Ret flt /\
    _LDAPConnection lib (service_connargs opts) st = (Ret conn, st1) /\
    ldap_search_s lib conn (basedn opts) (scope opts) flt (world st1)
      = (Ret [(authdn, attrs)], w2) /\
    (exists conn' wd we,
       ldap_simple_bind_s lib conn' authdn password wd = (Ret tt, we)) /\
    trace st' =
      (trace st
       ++ connection_calls
            {| ca_server := server opts; ca_port := port opts;
               ca_tls := tls opts;
               ca_binddn := binddn opts; ca_bindpw := bindpw opts |}
       ++ [EvLog "debug"
             ("Running LDAP user dn search with filter:" ++ flt
              ++ ", dn:" ++ basedn opts ++ ", scope:" ++ pretty (scope opts));
           EvCall "search_s" [basedn opts; pretty (scope opts); flt]]
       ++ [EvLog "debug" ("Attempting LDAP bind with user dn: " ++ authdn)]
       ++ connection_calls
            {| ca_server := server opts; ca_port := port opts;
               ca_tls := tls opts;
               ca_binddn := authdn; ca_bindpw := password |}
       ++ [EvLog "debug"
             ("Successfully authenticated user dn via LDAP: " ++ authdn)])%list.
Proof.
  rewrite auth_run.
  destruct (jinja_render (filter opts) username) as [flt|e0]; [|discriminate].
  destruct (_LDAPConnection lib (service_connargs opts) st)
    as [[conn|e1] st1] eqn:Hc; [|discriminate].
  cbv zeta.
  destruct (ldap_search_s lib conn (basedn opts) (scope opts) flt (world st1))
    as [[found|e2] w2] eqn:Hs; [|discriminate].
  destruct found as [|[authdn attrs] [|second more]]; try discriminate.
  destruct (_LDAPConnection lib (user_connargs opts authdn password) _)
    as [[c|e3] st4] eqn:Hu; [|discriminate].
  intros [= <-]. exists flt, conn, st1, authdn, attrs, w2.
  split; [reflexivity|]. split; [reflexivity|]. split; [assumption|]. split.
  - revert Hu. unfold _LDAPConnection, bind, attempt, extern, ret, raise. simpl.
    destruct (ldap_initialize lib _ w2) as [[conn'|e] wa]; simpl;
      [|discriminate].
    destruct (ldap_set_protocol_version lib conn' 3 wa) as [[[]|e] wb];
      simpl; [|discriminate].
    destruct (ldap_set_option lib conn' "OPT_REFERRALS" 0 wb) as [[[]|e] wc];
      simpl; [|discriminate].
    destruct (tls opts); simpl.
    + destruct (ldap_start_tls_s lib conn' wc) as [[[]|e] wd]; simpl;
        [|discriminate].
      destruct (ldap_simple_bind_s lib conn' authdn password wd)
        as [[[]|e] we] eqn:Hb; simpl; [|discriminate].
      intros _. eauto.
    + destruct (ldap_simple_bind_s lib conn' authdn password wc)
        as [[[]|e] we] eqn:Hb; simpl; [|discriminate].
      intros _. eauto.
  - cbn [trace].
    rewrite (connection_made _ _ _ _ Hu). cbn [trace].
    rewrite (connection_made _ _ _ _ Hc).
    rewrite <- !app_assoc. reflexivity.
Qed.

Lemma search_events_count (flt : string) :
  calls_of "search_s" (search_events opts flt) = 1 /\
  calls_of "simple_bind_s" (search_events opts flt) = 0 /\
  calls_of "ldap.initialize" (search_events opts flt) = 0.
Proof. repeat split. Qed.

Lemma calls_of_log (fn level msg : string) : calls_of fn [EvLog level msg] = 0.
Proof. reflexivity. Qed.

(** X5.  Whatever happens, one call of [auth] searches at most once and
    connects at most twice: nothing is tried again. *)
Theorem auth_call_bounds (username password : string) (st : state W) :
  let tr' := trace (snd (auth lib jinja_render opts username password st)) in
  calls_of "search_s" tr' <= 1 + calls_of "search_s" (trace st) /\
  calls_of "simple_bind_s" tr' <= 2 + calls_of "simple_bind_s" (trace st) /\
  calls_of "ldap.initialize" tr' <= 2 + calls_of "ldap.initialize" (trace st).
Proof.
  cbv zeta. rewrite auth_run.
  destruct (jinja_render (filter opts) username) as [flt|e0];
    [|simpl; repeat split; lia].
  pose proof (connection_adds "search_s" (service_connargs opts) st) as A1.
  pose proof (connection_adds "simple_bind_s" (service_connargs opts) st) as A2.
  pose proof (connection_adds "ldap.initialize" (service_connargs opts) st) as A3.
  destruct (connection_calls_count (service_connargs opts)) as (C2 & C3 & _ & C1).
  rewrite C1 in A1. rewrite C2 in A2. rewrite C3 in A3.
  destruct (search_events_count flt) as (S1 & S2 & S3).
  destruct (_LDAPConnection lib (service_connargs opts) st) as [[conn|e1] st1];
    cbn [snd] in A1, A2, A3; [|cbn [snd]; repeat split; lia].
  cbv zeta.
  destruct (ldap_search_s lib conn (basedn opts) (scope opts) flt (world st1))
    as [[found|e2] w2].
  - destruct found as [|[authdn attrs] [|second more]].
    + cbn [snd trace]. rewrite !calls_of_app, !calls_of_log, S1, S2, S3.
      repeat split; lia.
    + match goal with
      | |- context [_LDAPConnection lib ?c ?s] =>
          pose proof (connection_adds "search_s" c s) as B1;
          pose proof (connection_adds "simple_bind_s" c s) as B2;
          pose proof (connection_adds "ldap.initialize" c s) as B3;
          destruct (connection_calls_count c) as (D2 & D3 & _ & D1);
          rewrite D1 in B1; rewrite D2 in B2; rewrite D3 in B3;
          destruct (_LDAPConnection lib c s) as [[c'|e3] st4]
      end; cbn [snd trace] in *;
        rewrite !calls_of_app, !calls_of_log, ?S1, ?S2, ?S3 in *;
        repeat split; lia.
    + cbn [snd trace]. rewrite !calls_of_app, !calls_of_log, S1, S2, S3.
      repeat split; lia.
  - cbn [snd trace]. rewrite !calls_of_app, S1, S2, S3. repeat split; lia.
Qed.


End AuthCalls.

(** ** More on flattening *)

Lemma unpack2_Raise (pieces : list string) (e : exn) :
  unpack2 pieces = Raise e -> 2 <= length pieces ->
  e = ValueError "too many values to unpack" /\ 3 <= length pieces.
Proof.
  destruct pieces as [|x [|y [|z t]]]; simpl; intros H L; try lia;
    try discriminate.
  injection H as <-. split; [reflexivity | lia].
Qed.

Section FlattenCoverage.

Import PillarLdap.

Variable data : attrmap.

(** The inner loop fails on a value with two or more [=] only. *)
Lemma flatten_items_raise_cause (key : string) (items : list string)
    (result : gmap string pval) (e : exn) :
  flatten_items data key items result = Raise e ->
  e = ValueError "too many values to unpack" /\
  exists item, In item items /\ 2 <= count eq_char item.
Proof.
  revert result. induction items as [|item items IH]; intros result; simpl;
    [discriminate|].
  destruct (contains eq_char item) eqn:Hc.
  - destruct (unpack2 (split eq_char item)) as [[k v]|e'] eqn:Hu.
    + intros H. destruct (IH _ H) as (He & i & Hi & Hb).
      split; [exact He|]. exists i. split; [now right | exact Hb].
    + intros [= <-]. rewrite contains_count in Hc.
      pose proof (split_length eq_char item) as L.
      destruct (unpack2_Raise _ _ Hu) as [He L3].
      * rewrite L. destruct (count eq_char item); [discriminate | lia].
      * split; [exact He|]. exists item. split; [now left | lia].
  - intros H. destruct (IH _ H) as (He & i & Hi & Hb).
    split; [exact He|]. exists i. split; [now right | exact Hb].
Qed.

Lemma flatten_keys_raise_cause (attrs keys : list string)
    (result : gmap string pval) (e : exn) :
  (forall k, In k keys -> dict_get data k <> None) ->
  flatten_keys data attrs keys result = Raise e ->
  e = ValueError "too many values to unpack" /\
  exists key items item,
    In key keys /\ str_in key attrs = true /\ dict_get data key = Some items /\
    In item items /\ 2 <= count eq_char item.
Proof.
  revert result. induction keys as [|k keys IH]; intros result Hdom; simpl;
    [discriminate|].
  assert (IH' : forall r, flatten_keys data attrs keys r = Raise e ->
            e = ValueError "too many values to unpack" /\
            exists key items item,
              In key (k :: keys) /\ str_in key attrs = true /\
              dict_get data key = Some items /\
              In item items /\ 2 <= count eq_char item).
  { intros r H.
    destruct (IH r (fun x Hx => Hdom x (or_intror Hx)) H)
      as (He & key & items & item & Hk & Hrest).
    split; [exact He|]. exists key, items, item. split; [now right | exact Hrest]. }
  destruct (str_in k attrs) eqn:Ha; [|apply IH'].
  destruct (dict_get data k) as [items|] eqn:Hg.
  - destruct (flatten_items data k items result) as [r1|e'] eqn:Hi; [apply IH'|].
    intros [= <-]. destruct (flatten_items_raise_cause _ _ _ _ Hi)
      as (He & item & Hin & Hb).
    split; [exact He|]. exists k, items, item. split; [now left | auto].
  - exfalso. apply (Hdom k); [now left | assumption].
Qed.

(** Attributes that are not composite are copied one after the other. *)
Lemma flatten_keys_plain (attrs keys : list string) :
  (forall k, In k keys -> str_in k attrs = false) ->
  forall m : gmap string pval,
  exists r,
    flatten_keys data attrs keys m = Ret r /\
    forall key,
      (In key keys -> r !! key = Some (pval_of (dict_get data key))) /\
      (~ In key keys -> r !! key = m !! key).
Proof.
  induction keys as [|k keys IH]; intros Hplain m; simpl.
  - exists m. split; [reflexivity|]. intros key. split; [tauto | reflexivity].
  - rewrite (Hplain k (or_introl eq_refl)).
    destruct (IH (fun x Hx => Hplain x (or_intror Hx))
                 (<[k := pval_of (dict_get data k)]> m)) as (r & -> & Hr).
    exists r. split; [reflexivity|]. intros key.
    destruct (Hr key) as [Hin Hout]. split.
    + intros [->|Hk]; [|now apply Hin].
      destruct (in_dec string_dec key keys) as [Hk|Hk]; [now apply Hin|].
      rewrite (Hout Hk). apply lookup_insert_eq.
    + intros Hn. rewrite Hout by tauto.
      apply lookup_insert_ne. intros ->. apply Hn. now left.
Qed.

(** The outer loop looks at [attrs] only to ask whether a key is in it. *)
Lemma flatten_keys_ext (attrs attrs' keys : list string) :
  (forall k, In k keys -> str_in k attrs = str_in k attrs') ->
  forall m, flatten_keys data attrs keys m = flatten_keys data attrs' keys m.
Proof.
  induction keys as [|k keys IH]; intros Hsame m; simpl; [reflexivity|].
  rewrite <- (Hsame k (or_introl eq_refl)).
  assert (IH' := IH (fun x Hx => Hsame x (or_intror Hx))).
  destruct (str_in k attrs); [|apply IH'].
  destruct (dict_get data k) as [items|]; [|reflexivity].
  destruct (flatten_items data k items m); [apply IH' | reflexivity].
Qed.

Variable attrs : option (list string).

(** What holds right after the assignment [result[key] = data.get(key)]
    made for a composite value without [=], and is kept by every
    assignment, holds of the final result. *)
Lemma flatten_after_own (Q : gmap string pval -> Prop) (key : string)
    (items : list string) (item : string) (result : gmap string pval) :
  (forall m key' items' item' k' v',
     str_in key' (attrs_or_empty attrs) = true ->
     dict_get data key' = Some items' ->
     In item' items' -> split eq_char item' = [k'; v'] ->
     Q m -> Q (<[k' := PStr v']> m)) ->
  (forall m key' items' item',
     str_in key' (attrs_or_empty attrs) = true ->
     dict_get data key' = Some items' ->
     In item' items' -> contains eq_char item' = false ->
     Q m -> Q (<[key' := PList items']> m)) ->
  (forall m key',
     In key' (map fst data) -> str_in key' (attrs_or_empty attrs) = false ->
     Q m -> Q (<[key' := pval_of (dict_get data key')]> m)) ->
  (forall m, Q (<[key := PList items]> m)) ->
  str_in key (attrs_or_empty attrs) = true -> dict_get data key = Some items ->
  In item items -> contains eq_char item = false ->
  _result_to_dict data attrs = Ret result -> Q result.
Proof.
  intros Hkv Hown Hplain Hset Ha Hg Hin Hc. unfold _result_to_dict.
  assert (Hk : In key (map fst data)) by (apply dict_get_keys; congruence).
  apply in_split in Hk as (pre & post & Hsplit).
  rewrite Hsplit, flatten_keys_app.
  destruct (flatten_keys data (attrs_or_empty attrs) pre ∅) as [r1|e];
    [|discriminate].
  simpl. rewrite Ha, Hg.
  apply in_split in Hin as (xs & ys & ->).
  rewrite flatten_items_app.
  destruct (flatten_items data key xs r1) as [r2|e]; [|discriminate].
  simpl. rewrite Hc, Hg. simpl.
  destruct (flatten_items data key ys (<[key:=PList (xs ++ item :: ys)]> r2))
    as [r3|e] eqn:H3; [|discriminate].
  apply flatten_keys_inv.
  - intros m key' items' item' k' v' _. apply Hkv.
  - intros m key' items' item' _. apply Hown.
  - intros m key' Hk'. apply Hplain. rewrite Hsplit.
    apply in_or_app. right. now right.
  - apply (flatten_items_inv data Q key ys)
      with (result := <[key:=PList (xs ++ item :: ys)]> r2); auto.
    + intros m item' k' v' Hi'.
      apply (Hkv m key (xs ++ item :: ys)%list item'); auto.
      apply in_or_app. right. now right.
    + intros m item' Hi' Hc'. rewrite Hg. simpl.
      apply (Hown m key (xs ++ item :: ys)%list item'); auto.
      apply in_or_app. right. now right.
Qed.

End FlattenCoverage.

Section FlattenProperties.

Import PillarLdap.

(** Flattening fails on the unpacking of a composite value only. *)
Lemma flatten_fails_cause (data : attrmap) (attrs : option (list string)) :
  (forall e, _result_to_dict data attrs = Raise e ->
     e = ValueError "too many values to unpack" /\
     exists item, composite_value data attrs item /\ 2 <= count eq_char item)
  /\
  ((exists item, composite_value data attrs item /\ 2 <= count eq_char item) ->
   _result_to_dict data attrs = Raise (ValueError "too many values to unpack")).
Proof.
  split.
  - intros e H. unfold _result_to_dict in H.
    apply flatten_keys_raise_cause in H
      as (He & key & items & item & Hk & Ha & Hg & Hin & Hb).
    + split; [exact He|]. exists item. split; [|exact Hb].
      exists key, items. auto.
    + intros k Hk. now apply dict_get_keys.
  - intros (item & (key & items & Hl & Hg & Hin) & Hb). unfold _result_to_dict.
    apply (flatten_keys_raises data _ _ key items item); auto.
    + intros k Hk. now apply dict_get_keys.
    + apply dict_get_keys. congruence.
Qed.

(** X6.  [_result_to_dict] fails in one way only, on the unpacking of a
    value, and exactly when a value of a composite attribute of the data
    has two or more [=]. *)
Theorem flatten_fails_iff (data : attrmap) (attrs : option (list string)) :
  (forall e, _result_to_dict data attrs = Raise e ->
     e = ValueError "too many values to unpack" /\
     exists item, composite_value data attrs item /\ 2 <= count eq_char item)
  /\
  ((exists item, composite_value data attrs item /\ 2 <= count eq_char item) ->
   _result_to_dict data attrs = Raise (ValueError "too many values to unpack")).
Proof.
  split.
  - intros e H. unfold _result_to_dict in H.
    apply flatten_keys_raise_cause in H
      as (He & key & items & item & Hk & Ha & Hg & Hin & Hb).
    + split; [exact He|]. exists item. split; [|exact Hb].
      exists key, items. auto.
    + intros k Hk. now apply dict_get_keys.
  - intros (item & (key & items & Hl & Hg & Hin) & Hb). unfold _result_to_dict.
    apply (flatten_keys_raises data _ _ key items item); auto.
    + intros k Hk. now apply dict_get_keys.
    + apply dict_get_keys. congruence.
Qed.

(** X7.  When none of the attributes of the data is listed as composite
    (no [attrs] at all, an empty list, or names that do not occur),
    flattening returns the data as it is: every attribute with its list
    of values, and nothing else. *)
Theorem flatten_without_composites (data : attrmap)
    (attrs : option (list string)) :
  (forall key, In key (map fst data) -> listed attrs key = false) ->
  exists result,
    _result_to_dict data attrs = Ret result /\
    forall key, result !! key = PList <$> dict_get data key.
Proof.
  intros Hplain. unfold _result_to_dict.
  destruct (flatten_keys_plain data (attrs_or_empty attrs) (map fst data)
              Hplain ∅) as (r & -> & Hr).
  exists r. split; [reflexivity|]. intros key.
  destruct (Hr key) as [Hin Hout].
  destruct (dict_get data key) as [vals|] eqn:Hg.
  - rewrite Hin; [reflexivity|]. apply dict_get_keys. congruence.
  - rewrite Hout; [apply lookup_empty|].
    intros Hk. apply dict_get_keys in Hk. congruence.
Qed.

(** X8.  A composite attribute with a value that has no [=] is stored
    whole under its own name, the values of the form [k=v] included,
    unless a composite value has the form [key=...]. *)
Theorem flatten_composite_plain_value (data : attrmap)
    (attrs : option (list string)) (key : string) (items : list string)
    (item : string) :
  splittable data attrs ->
  listed attrs key = true ->
  dict_get data key = Some items ->
  In item items ->
  contains eq_char item = false ->
  unnamed data attrs key ->
  exists result,
    _result_to_dict data attrs = Ret result /\
    result !! key = Some (PList items).
Proof.
  intros Hok Hl Hg Hin Hc Hun.
  destruct (flatten_returns data attrs Hok) as [result Hret].
  exists result. split; [exact Hret|]. unfold listed in Hl.
  apply (flatten_after_own data attrs
           (fun m => m !! key = Some (PList items)) key items item);
    try assumption.
  - intros m key' items' item' k' v' Ha' Hg' Hin' Hs' Hm.
    rewrite lookup_insert_ne; [assumption|].
    intros ->. apply (Hun item' v'); [|now apply kv_form_split].
    exists key', items'. auto.
  - intros m key' items' item' Ha' Hg' Hin' Hc' Hm.
    destruct (decide (key' = key)) as [->|Hne].
    + assert (items' = items) by congruence. subst items'.
      apply lookup_insert_eq.
    + now rewrite lookup_insert_ne.
  - intros m key' Hk' Ha' Hm.
    rewrite lookup_insert_ne; [assumption | congruence].
  - intros m. apply lookup_insert_eq.
Qed.

(** X9.  Every entry of a flattened result comes from the data: it is an
    attribute with its list of values, or the key and the text of a
    composite value [k=v].  Nothing else is ever stored. *)
Theorem flatten_provenance (data : attrmap) (attrs : option (list string))
    (result : gmap string pval) :
  _result_to_dict data attrs = Ret result ->
  forall k x,
    result !! k = Some x ->
    (exists vals, dict_get data k = Some vals /\ x = PList vals) \/
    (exists item v,
       composite_value data attrs item /\ kv_form item k v /\ x = PStr v).
Proof.
  apply (flatten_always data attrs
           (fun m => forall k x, m !! k = Some x ->
              (exists vals, dict_get data k = Some vals /\ x = PList vals) \/
              (exists item v,
                 composite_value data attrs item /\ kv_form item k v /\
                 x = PStr v))).
  - intros m key' items' item' k' v' Ha' Hg' Hin' Hs' Hm k x.
    destruct (decide (k' = k)) as [->|Hne].
    + rewrite lookup_insert_eq. intros [= <-]. right. exists item', v'.
      split; [exists key', items'; auto|]. split; [|reflexivity].
      now apply kv_form_split.
    + rewrite lookup_insert_ne by assumption. apply Hm.
  - intros m key' items' item' Ha' Hg' Hin' Hc' Hm k x.
    destruct (decide (key' = k)) as [->|Hne].
    + rewrite lookup_insert_eq. intros [= <-]. left. eauto.
    + rewrite lookup_insert_ne by assumption. apply Hm.
  - intros m key' Hk' Ha' Hm k x.
    destruct (decide (key' = k)) as [->|Hne].
    + rewrite lookup_insert_eq. intros [= <-]. left.
      apply dict_get_keys in Hk'.
      destruct (dict_get data k) as [vals|]; [eauto | congruence].
    + rewrite lookup_insert_ne by assumption. apply Hm.
  - intros k x. rewrite lookup_empty. discriminate.
Qed.

(** X10.  Flattening uses [attrs] as a set: two lists that agree on which
    attributes of the data they name give the same outcome, whatever
    their order, their repetitions and the other names in them. *)
Theorem flatten_attrs_as_set (data : attrmap) (attrs attrs' : option (list string)) :
  (forall key, In key (map fst data) -> listed attrs key = listed attrs' key) ->
  _result_to_dict data attrs = _result_to_dict data attrs'.
Proof.
  intros Hsame. unfold _result_to_dict. now apply flatten_keys_ext.
Qed.

End FlattenProperties.

(** ** More on the pillar source *)

Section PillarCoverage.

Import PillarLdap.

Context {W : Type}.
Variable P : Platform W.

(** [ext_pillar] on a path that is a file, by the outcomes of opening,
    rendering and parsing it. *)
Lemma ext_pillar_run (config_file : string) (st : state W) :
  os_path_isfile P config_file (world st) = true ->
  ext_pillar P config_file st =
  match open_read P config_file (world st) with
  | (Raise e, w1) =>
      (Raise (UnboundLocalError "opts"),
       parse_reported P config_file e
         (mkState w1 (trace st ++ [EvCall "open" [config_file]])))
  | (Ret _, w1) =>
      match jinja_render_file P config_file w1 with
      | (Raise e, w2) =>
          (Raise (UnboundLocalError "opts"),
           parse_reported P config_file e (config_read config_file st w2))
      | (Ret text, w2) =>
          match (match text with
                 | EmptyString =>
                     Raise (AttributeError
                              "'dict' object has no attribute 'read'")
                 | _ => yaml_safe_load P text
                 end) with
          | Raise e =>
              (Raise (UnboundLocalError "opts"),
               parse_reported P config_file e (config_read config_file st w2))
          | Ret loaded =>
              match search_order (loaded_opts config_file loaded) with
              | None =>
                  (Raise (KeyError "search_order"),
                   config_read config_file st w2)
              | Some order =>
                  pillar_loop P (loaded_opts config_file loaded) order ∅
                    (config_read config_file st w2)
              end
          end
      end
  end.
Proof.
  intros Hf.
  unfold ext_pillar, bind, attempt, _render_template, extern, lift, ret, raise,
    parse_reported, config_read, loaded_opts, log, print.
  rewrite Hf.
  destruct (open_read P config_file (world st)) as [[[]|e] w1]; simpl.
  - destruct (jinja_render_file P config_file w1) as [[text|e] w2]; simpl.
    + destruct text as [|ch text]; simpl.
      * destruct (is_console_configured P w2); reflexivity.
      * destruct (yaml_safe_load P (String ch text)) as [loaded|e]; simpl.
        -- destruct (search_order (default empty_opts loaded)); reflexivity.
        -- destruct (is_console_configured P w2); reflexivity.
    + destruct (is_console_configured P w2); reflexivity.
  - destruct (is_console_configured P w1); reflexivity.
Qed.

(** What the search leaves in the trace: its one call, when the function
    [ldap.search] is there. *)
Lemma raw_search_trace (conf : Conf) (flt : string) (st : state W) :
  exists calls,
    trace (snd (raw_search P conf flt st)) = (trace st ++ calls)%list /\
    calls_of "ldap.search" calls <= 1.
Proof.
  unfold raw_search, salt_call_search, bind, extern, lift, ret, raise, _config.
  destruct (salt_ldap_search P) as [f|].
  - exists [EvCall "ldap.search"
              [flt; default "None" (c_dn conf);
               from_option pretty "None" (c_scope conf)]].
    split; [|unfold calls_of; simpl; lia].
    destruct (f flt (c_dn conf) (c_scope conf) (c_attrs conf)
                (conf_connargs conf) (world st)) as [[reply|e] w1];
      [|reflexivity].
    destruct (results reply) as [[|first rest]|]; reflexivity.
  - exists []. split; [now rewrite app_nil_r | unfold calls_of; simpl; lia].
Qed.

(** [_do_search] searches at most once. *)
Lemma do_search_adds (conf : Conf) (st : state W) :
  calls_of "ldap.search" (trace (snd (_do_search P conf st)))
  <= S (calls_of "ldap.search" (trace st)).
Proof.
  destruct (c_filter conf) as [flt|] eqn:Hf.
  - rewrite (do_search_cases P conf flt st Hf).
    destruct (raw_search_trace conf flt st) as (calls & Ht & Hc).
    destruct (raw_search P conf flt st) as [[[|a data]|e] st1];
      simpl in Ht |- *; rewrite Ht, ?calls_of_app; try lia.
    unfold calls_of at 3. simpl. lia.
  - unfold _do_search, bind, lift. rewrite Hf. simpl. lia.
Qed.

Lemma merge_all_lookup (found : list (gmap string pval)) :
  forall (data : gmap string pval) (k : string) (v : pval),
    merge_all data found !! k = Some v ->
    data !! k = Some v \/ exists r, In r found /\ r !! k = Some v.
Proof.
  unfold merge_all. induction found as [|r found IH]; intros data k v; simpl.
  - auto.
  - intros H. destruct (IH _ _ _ H) as [Hd|(r' & Hin & Hr)].
    + unfold dict_update in Hd. apply lookup_union_Some_raw in Hd
        as [Hr|[_ Hd]]; [right; exists r; auto | now left].
    + right. exists r'. auto.
Qed.

Lemma merge_all_is_Some (found : list (gmap string pval)) :
  forall (data : gmap string pval) (k : string),
    (is_Some (data !! k) \/ exists r, In r found /\ is_Some (r !! k)) ->
    is_Some (merge_all data found !! k).
Proof.
  unfold merge_all. induction found as [|r found IH]; intros data k; simpl.
  - intros [H|(r & [] & _)]. exact H.
  - intros H. apply IH.
    assert (Hu : is_Some (r !! k) \/ is_Some (data !! k) ->
                 is_Some (dict_update data r !! k)).
    { unfold dict_update. rewrite lookup_union_is_Some. tauto. }
    destruct H as [H|(r' & [->|Hin] & Hr)]; [left; auto | left; auto |].
    right. exists r'. auto.
Qed.

(** X11.  [_do_search] raises in three ways only: on the name
    [SaltInvocationError] when the filter is missing, before any search;
    on the unbound [result] when the first entry has no attributes; on
    the unpacking of a composite value.  An exception of the search
    itself never leaves it. *)
Theorem do_search_raise_cases (conf : Conf) (st st' : state W) (e : exn) :
  _do_search P conf st = (Raise e, st') ->
  (c_filter conf = None /\ e = NameError "SaltInvocationError" /\ st' = st) \/
  (exists flt,
     c_filter conf = Some flt /\ raw_search P conf flt st = (Ret [], st') /\
     e = UnboundLocalError "result") \/
  (exists flt data,
     c_filter conf = Some flt /\ raw_search P conf flt st = (Ret data, st') /\
     _result_to_dict data (c_attrs conf) = Raise e /\
     e = ValueError "too many values to unpack").
Proof.
  destruct (c_filter conf) as [flt|] eqn:Hf.
  - rewrite (do_search_cases P conf flt st Hf).
    destruct (raw_search P conf flt st) as [[[|a data]|e0] st1] eqn:Hr.
    + intros [= <- <-]. right. left. exists flt. auto.
    + destruct (_result_to_dict (a :: data) (c_attrs conf)) as [r|e1] eqn:Hd;
        [discriminate|].
      intros [= <- <-]. right. right. exists flt, (a :: data).
      repeat split; auto.
      now destruct (proj1 (flatten_fails_cause (a :: data) (c_attrs conf)) e1 Hd).
    + discriminate.
  - unfold _do_search, bind, lift. rewrite Hf. simpl.
    intros [= <- <-]. left. auto.
Qed.

(** X12.  When the search answers with at least one entry that has
    attributes, [_do_search] returns the flattening of the attributes of
    the first entry: the name of that entry and the entries after it play
    no part. *)
Theorem do_search_first_entry (conf : Conf) (flt : string) (st : state W)
    (search : search_fn W) (reply : SearchReply) (w1 : W)
    (dn : string) (a : string * list string) (data : attrmap)
    (more : list entry) :
  c_filter conf = Some flt ->
  salt_ldap_search P = Some search ->
  search flt (c_dn conf) (c_scope conf) (c_attrs conf) (conf_connargs conf)
    (world st) = (Ret reply, w1) ->
  results reply = Some ((dn, a :: data) :: more) ->
  exists tr,
    _do_search P conf st =
      (_result_to_dict (a :: data) (c_attrs conf), mkState w1 tr) /\
    calls_of "ldap.search" tr = S (calls_of "ldap.search" (trace st)).
Proof.
  intros Hf Hs Hr Hres.
  rewrite (do_search_cases P conf flt st Hf).
  unfold raw_search, salt_call_search, bind, extern, lift, ret, _config.
  rewrite Hs, Hr, Hres. simpl. eexists. split; [reflexivity|].
  rewrite calls_of_app. unfold calls_of at 2. simpl. lia.
Qed.

(** X13.  When the function [ldap.search] is not there, or its answer has
    no [results], or [results] is empty, [_do_search] reports it as a
    failure and returns the empty mapping: a search that finds nothing
    is not an error for the caller. *)
Theorem do_search_nothing_found (conf : Conf) (flt : string) (st : state W) :
  c_filter conf = Some flt ->
  (salt_ldap_search P = None \/
   exists search reply w1,
     salt_ldap_search P = Some search /\
     search flt (c_dn conf) (c_scope conf) (c_attrs conf) (conf_connargs conf)
       (world st) = (Ret reply, w1) /\
     (results reply = None \/ results reply = Some [])) ->
  exists e st1,
    _do_search P conf st = (Ret ∅, reported e st1) /\
    (e = KeyError "ldap.search" \/ e = KeyError "results" \/ e = IndexError).
Proof.
  intros Hf Hcase. rewrite (do_search_cases P conf flt st Hf).
  unfold raw_search, salt_call_search, bind, extern, lift, ret, raise, _config.
  destruct Hcase as [Hs|(search & reply & w1 & Hs & Hr & [Hres|Hres])];
    rewrite Hs; [|rewrite Hr, Hres; simpl..].
  - exists (KeyError "ldap.search"), st. auto.
  - eexists (KeyError "results"), _. auto.
  - eexists IndexError, _. auto.
Qed.

(** X14.  When the configuration file is there but cannot be opened or
    rendered, renders to nothing, or does not parse, [ext_pillar] fails
    on the unbound [opts] after one report of that very error (a warning
    when the console is configured, a printed line otherwise), which is
    all it adds to the trace after the calls that opened and rendered the
    file; no search is made. *)
Theorem ext_pillar_parse_failure (config_file : string) (st : state W) :
  os_path_isfile P config_file (world st) = true ->
  let report := fun (w : W) (e : exn) =>
    let msg := "Error parsing configuration file: " ++ config_file
               ++ " - " ++ exn_str e in
    if is_console_configured P w then EvLog "warn" msg else EvPrint msg in
  let opened := EvCall "open" [config_file] in
  let rendered := EvCall "jinja2.render" [config_file] in
  (forall e w1,
     open_read P config_file (world st) = (Raise e, w1) ->
     ext_pillar P config_file st =
       (Raise (UnboundLocalError "opts"),
        mkState w1 (trace st ++ [opened; report w1 e]))) /\
  (forall u w1 e w2,
     open_read P config_file (world st) = (Ret u, w1) ->
     jinja_render_file P config_file w1 = (Raise e, w2) ->
     ext_pillar P config_file st =
       (Raise (UnboundLocalError "opts"),
        mkState w2 (trace st ++ [opened; rendered; report w2 e]))) /\
  (forall u w1 w2,
     open_read P config_file (world st) = (Ret u, w1) ->
     jinja_render_file P config_file w1 = (Ret EmptyString, w2) ->
     ext_pillar P config_file st =
       (Raise (UnboundLocalError "opts"),
        mkState w2
          (trace st ++
           [opened; rendered;
            report w2
              (AttributeError "'dict' object has no attribute 'read'")]))) /\
  (forall u w1 text w2 e,
     open_read P config_file (world st) = (Ret u, w1) ->
     jinja_render_file P config_file w1 = (Ret text, w2) ->
     text <> EmptyString ->
     yaml_safe_load P text = Raise e ->
     ext_pillar P config_file st =
       (Raise (UnboundLocalError "opts"),
        mkState w2 (trace st ++ [opened; rendered; report w2 e]))) /\
  (forall w e,
     calls_of "ldap.search" [opened; rendered; report w e] = 0).
Proof.
  intros Hf report opened rendered.
  rewrite (ext_pillar_run config_file st Hf).
  unfold parse_reported, config_read. cbn [world trace].
  split; [|split; [|split; [|split]]].
  - intros e w1 Ho. rewrite Ho. rewrite <- app_assoc. reflexivity.
  - intros u w1 e w2 Ho Hr. rewrite Ho, Hr. rewrite <- !app_assoc. reflexivity.
  - intros u w1 w2 Ho Hr. rewrite Ho, Hr. rewrite <- !app_assoc. reflexivity.
  - intros u w1 text w2 e Ho Hr Ht Hy. rewrite Ho, Hr.
    destruct text as [|ch text]; [congruence|].
    rewrite Hy. rewrite <- !app_assoc. reflexivity.
  - intros w e. unfold report, opened, rendered, calls_of.
    destruct (is_console_configured P w); reflexivity.
Qed.

(** X15.  A configuration file that parses but has no [search_order],
    the empty document among them, makes [ext_pillar] fail on that key,
    before any search. *)
Theorem ext_pillar_no_search_order (config_file : string) (st : state W)
    (u : unit) (w1 w2 : W) (text : string) (loaded : option Opts) :
  os_path_isfile P config_file (world st) = true ->
  open_read P config_file (world st) = (Ret u, w1) ->
  jinja_render_file P config_file w1 = (Ret text, w2) ->
  text <> EmptyString ->
  yaml_safe_load P text = Ret loaded ->
  search_order (default empty_opts loaded) = None ->
  ext_pillar P config_file st =
    (Raise (KeyError "search_order"), config_read config_file st w2).
Proof.
  intros Hf Ho Hr Ht Hy Hord. rewrite (ext_pillar_run config_file st Hf).
  rewrite Ho, Hr. destruct text as [|ch text]; [congruence|].
  rewrite Hy. unfold loaded_opts. simpl. now rewrite Hord.
Qed.

(** X16.  A name of [search_order] that has no search specification is
    not skipped: when the loop comes to it, the whole fetch fails on that
    key, without a search for it. *)
Theorem pillar_loop_unknown_source (opts : Opts) (before : list string)
    (source : string) (rest : list string) (data0 data : gmap string pval)
    (st0 st : state W) :
  sources opts !! source = None ->
  source <> "search_order" ->
  source <> "conf_file" ->
  pillar_loop P opts before data0 st0 = (Ret data, st) ->
  pillar_loop P opts (before ++ source :: rest)%list data0 st0 =
    (Raise (KeyError source), st).
Proof.
  intros Hn H1 H2 Hb. rewrite pillar_loop_app, Hb. simpl.
  unfold bind, lift, opts_getitem.
  apply String.eqb_neq in H1, H2. rewrite H1, H2, Hn. reflexivity.
Qed.

(** X17.  The loop of [ext_pillar] makes at most one call of
    [ldap.search] for each name of the search order, whatever the
    searches answer. *)
Theorem pillar_loop_search_bound (opts : Opts) (order : list string)
    (data : gmap string pval) (st : state W) :
  calls_of "ldap.search" (trace (snd (pillar_loop P opts order data st)))
  <= calls_of "ldap.search" (trace st) + length order.
Proof.
  revert data st. induction order as [|source rest IH]; intros data st; simpl.
  - lia.
  - unfold bind, lift.
    destruct (opts_getitem opts source) as [config|e]; [|simpl; lia].
    assert (Hone : calls_of "ldap.search"
                     (trace (snd (do_search_item P config st)))
                   <= S (calls_of "ldap.search" (trace st))).
    { destruct config; simpl; try lia. apply do_search_adds. }
    destruct (do_search_item P config st) as [[result|e] st1];
      simpl in Hone |- *; [|lia].
    specialize (IH (if dict_truthy result then dict_update data result else data)
                   st1). lia.
Qed.

(** X18.  When the searches of all sources return, the final mapping has
    the keys of all their results and of the data the loop started
    from, and no other; the value under a key is one that the data or a
    result had under that key, whole. *)
Theorem pillar_merge_provenance (opts : Opts) (order : list string)
    (data : gmap string pval) (st st' : state W)
    (found : list (gmap string pval)) :
  search_all P opts order st = (Ret found, st') ->
  exists final,
    pillar_loop P opts order data st = (Ret final, st') /\
    (forall k v, final !! k = Some v ->
       data !! k = Some v \/ exists r, In r found /\ r !! k = Some v) /\
    (forall k,
       (is_Some (data !! k) \/ exists r, In r found /\ is_Some (r !! k)) ->
       is_Some (final !! k)).
Proof.
  intros Hall. exists (merge_all data found). split; [|split].
  - now rewrite pillar_loop_search_all, Hall.
  - intros k v. apply merge_all_lookup.
  - intros k. apply merge_all_is_Some.
Qed.

(** X19.  From the file to the mapping: when the configuration file is
    read and parsed, names a search order, and the searches of all its
    sources return, [ext_pillar] returns their results merged in that
    order, starting from the empty mapping. *)
Theorem ext_pillar_merges (config_file : string) (st st' : state W)
    (u : unit) (w1 w2 : W) (text : string) (loaded : option Opts)
    (order : list string) (found : list (gmap string pval)) :
  os_path_isfile P config_file (world st) = true ->
  open_read P config_file (world st) = (Ret u, w1) ->
  jinja_render_file P config_file w1 = (Ret text, w2) ->
  text <> EmptyString ->
  yaml_safe_load P text = Ret loaded ->
  search_order (default empty_opts loaded) = Some order ->
  search_all P (loaded_opts config_file loaded) order
    (config_read config_file st w2) = (Ret found, st') ->
  ext_pillar P config_file st = (Ret (merge_all ∅ found), st').
Proof.
  intros Hf Ho Hr Ht Hy Hord Hall. rewrite (ext_pillar_run config_file st Hf).
  rewrite Ho, Hr. destruct text as [|ch text]; [congruence|].
  rewrite Hy. unfold loaded_opts at 1. simpl. rewrite Hord.
  now rewrite pillar_loop_search_all, Hall.
Qed.

End PillarCoverage.

(** ** These properties on the small directory *)

Section MoreRuns.

Import PillarLdap Demo.

Ltac concrete_value H :=
  let key := fresh "key" in
  let items := fresh "items" in
  let Hl := fresh "Hl" in
  let Hg := fresh "Hg" in
  let Hin := fresh "Hin" in
  destruct H as (key & items & Hl & Hg & Hin);
  apply str_in_In in Hl; simpl in Hl;
  repeat (destruct Hl as [Hl|Hl]; [subst key; simpl in Hg|]);
  [.. | destruct Hl];
  injection Hg as <-; simpl in Hin;
  repeat (destruct Hin as [Hin|Hin]; [subst|]); [.. | destruct Hin].



Lemma auth_true_trace_witness :
  trace (snd (AuthLdap.auth demo_lib demo_render AuthLdap.default_opts
                "alice@x.com" "secret" start)) =
  [EvCall "ldap.initialize" ["ldap://localhost:389"];
   EvCall "protocol_version" ["3"];
   EvCall "set_option" ["OPT_REFERRALS"; "0"];
   EvCall "simple_bind_s" ["uid=admin,o=acme,c=gb"; "sssssh"];
   EvLog "debug"
     "Running LDAP user dn search with filter:emailAddress=alice@x.com, dn:o=acme,c=gb, scope:2";
   EvCall "search_s" ["o=acme,c=gb"; "2"; "emailAddress=alice@x.com"];
   EvLog "debug" "Attempting LDAP bind with user dn: uid=alice,o=acme,c=gb";
   EvCall "ldap.initialize" ["ldap://localhost:389"];
   EvCall "protocol_version" ["3"];
   EvCall "set_option" ["OPT_REFERRALS"; "0"];
   EvCall "simple_bind_s" ["uid=alice,o=acme,c=gb"; "secret"];
   EvLog "debug"
     "Successfully authenticated user dn via LDAP: uid=alice,o=acme,c=gb"].
Proof.
  destruct (auth_true_trace demo_lib demo_render AuthLdap.default_opts
              "alice@x.com" "secret" start
              (snd (AuthLdap.auth demo_lib demo_render AuthLdap.default_opts
                      "alice@x.com" "secret" start)))
    as (flt & conn & st1 & authdn & attrs & w2 & Hr & Hc & Hs & _ & Ht);
    [vm_compute; reflexivity|].
  rewrite Ht. clear Ht.
  injection Hr as <-.
  assert (E : AuthLdap._LDAPConnection demo_lib
                (AuthLdap.service_connargs AuthLdap.default_opts) start
              = (Ret "ldap://localhost:389",
                 mkState 1
                   [EvCall "ldap.initialize" ["ldap://localhost:389"];
                    EvCall "protocol_version" ["3"];
                    EvCall "set_option" ["OPT_REFERRALS"; "0"];
                    EvCall "simple_bind_s"
                      ["uid=admin,o=acme,c=gb"; "sssssh"]]))
    by reflexivity.
  rewrite E in Hc. injection Hc as <- <-.
  simpl in Hs. injection Hs as <- _ _. reflexivity.
Defined.

Lemma flatten_fails_iff_witness :
  _result_to_dict [("kv", ["a=b=c"])] (Some ["kv"])
  = Raise (ValueError "too many values to unpack").
Proof.
  apply (flatten_fails_iff [("kv", ["a=b=c"])] (Some ["kv"])).
  exists "a=b=c". split; [|simpl; lia].
  exists "kv", ["a=b=c"]. repeat split. now left.
Defined.

Lemma flatten_without_composites_witness :
  exists result,
    _result_to_dict [("cn", ["Alice"]); ("mail", ["a@x.com"; "tag=b@x.com"])]
      (Some ["saltKeyValue"]) = Ret result /\
    forall key,
      result !! key =
      PList <$> dict_get [("cn", ["Alice"]);
                          ("mail", ["a@x.com"; "tag=b@x.com"])] key.
Proof.
  apply (flatten_without_composites
           [("cn", ["Alice"]); ("mail", ["a@x.com"; "tag=b@x.com"])]
           (Some ["saltKeyValue"])).
  intros key [<-|[<-|[]]]; reflexivity.
Defined.

Lemma flatten_composite_plain_value_witness :
  exists result,
    _result_to_dict [("saltKeyValue", ["a=1"; "standalone"])]
      (Some ["saltKeyValue"]) = Ret result /\
    result !! "saltKeyValue" = Some (PList ["a=1"; "standalone"]).
Proof.
  apply (flatten_composite_plain_value
           [("saltKeyValue", ["a=1"; "standalone"])] (Some ["saltKeyValue"])
           "saltKeyValue" ["a=1"; "standalone"] "standalone").
  - intros item Hc. concrete_value Hc; simpl; lia.
  - reflexivity.
  - reflexivity.
  - right. now left.
  - reflexivity.
  - intros item v Hc Hf. apply kv_form_split in Hf.
    concrete_value Hc; vm_compute in Hf; congruence.
Defined.

Lemma flatten_provenance_witness :
  (exists vals,
     dict_get [("cn", ["Alice"]); ("saltKeyValue", ["a=1"])] "a" = Some vals /\
     PStr "1" = PList vals) \/
  (exists item v,
     composite_value [("cn", ["Alice"]); ("saltKeyValue", ["a=1"])]
       (Some ["saltKeyValue"]) item /\
     kv_form item "a" v /\ PStr "1" = PStr v).
Proof.
  apply (flatten_provenance
           [("cn", ["Alice"]); ("saltKeyValue", ["a=1"])]
           (Some ["saltKeyValue"])
           (<["a" := PStr "1"]> {["cn" := PList ["Alice"]]})).
  - vm_compute. reflexivity.
  - reflexivity.
Defined.

Lemma flatten_attrs_as_set_witness :
  _result_to_dict [("kv", ["a=1"]); ("cn", ["Alice"])]
    (Some ["other"; "kv"; "kv"])
  = _result_to_dict [("kv", ["a=1"]); ("cn", ["Alice"])] (Some ["kv"]).
Proof.
  apply (flatten_attrs_as_set [("kv", ["a=1"]); ("cn", ["Alice"])]
           (Some ["other"; "kv"; "kv"]) (Some ["kv"])).
  intros key [<-|[<-|[]]]; reflexivity.
Defined.

Lemma do_search_raise_cases_witness :
  let conf := source "(cn=bare)" in
  let st' := snd (_do_search three_sources conf start) in
  let e := UnboundLocalError "result" in
  (c_filter conf = None /\ e = NameError "SaltInvocationError" /\ st' = start)
  \/
  (exists flt,
     c_filter conf = Some flt /\
     raw_search three_sources conf flt start = (Ret [], st') /\
     e = UnboundLocalError "result") \/
  (exists flt data,
     c_filter conf = Some flt /\
     raw_search three_sources conf flt start = (Ret data, st') /\
     _result_to_dict data (c_attrs conf) = Raise e /\
     e = ValueError "too many values to unpack").
Proof.
  intros conf st' e.
  apply (do_search_raise_cases three_sources conf start st' e).
  vm_compute. reflexivity.
Defined.

Lemma do_search_first_entry_witness :
  exists tr,
    _do_search three_sources (source "(cn=site)") start =
      (_result_to_dict
         [("saltKeyValue", ["ntpserver=ntp.site.local"; "dns=10.0.0.1"])]
         (Some ["saltKeyValue"]),
       mkState 1 tr) /\
    calls_of "ldap.search" tr = S (calls_of "ldap.search" (trace start)).
Proof.
  apply (do_search_first_entry three_sources (source "(cn=site)") "(cn=site)"
           start demo_search
           (host_entry "cn=site,o=acme"
              ["ntpserver=ntp.site.local"; "dns=10.0.0.1"])
           1 "cn=site,o=acme"
           ("saltKeyValue", ["ntpserver=ntp.site.local"; "dns=10.0.0.1"])
           [] []); reflexivity.
Defined.

Lemma do_search_nothing_found_witness :
  exists e st1,
    _do_search three_sources (source "(cn=nobody)") start
      = (Ret ∅, reported e st1) /\
    (e = KeyError "ldap.search" \/ e = KeyError "results" \/ e = IndexError).
Proof.
  apply (do_search_nothing_found three_sources (source "(cn=nobody)")
           "(cn=nobody)" start); [reflexivity|].
  right. exists demo_search, {| results := Some [] |}, 1.
  repeat split. now right.
Defined.

Lemma ext_pillar_parse_failure_witness :
  ext_pillar (demo_platform "") config_path start =
    (Raise (UnboundLocalError "opts"),
     mkState 0
       [EvCall "open" ["/etc/salt/pillar_ldap.yaml"];
        EvCall "jinja2.render" ["/etc/salt/pillar_ldap.yaml"];
        EvLog "warn"
          "Error parsing configuration file: /etc/salt/pillar_ldap.yaml - 'dict' object has no attribute 'read'"]).
Proof.
  destruct (ext_pillar_parse_failure (demo_platform "") config_path start)
    as (_ & _ & Hempty & _); [reflexivity|].
  apply (Hempty tt 0 0); reflexivity.
Defined.

Lemma ext_pillar_no_search_order_witness :
  ext_pillar blank_platform config_path start =
    (Raise (KeyError "search_order"), config_read config_path start 0).
Proof.
  apply (ext_pillar_no_search_order blank_platform config_path start tt 0 0
           "# nothing" None); try reflexivity. discriminate.
Defined.

Lemma pillar_loop_unknown_source_witness :
  pillar_loop three_sources (demo_opts []) (["ntp"] ++ "missing" :: ["site"])%list
    ∅ start =
    (Raise (KeyError "missing"),
     snd (pillar_loop three_sources (demo_opts []) ["ntp"] ∅ start)).
Proof.
  apply (pillar_loop_unknown_source three_sources (demo_opts []) ["ntp"]
           "missing" ["site"] ∅ {["ntpserver" := PStr "ntp.acme.local"]}
           start); first [reflexivity | discriminate].
Defined.

Lemma pillar_merge_provenance_witness :
  let r1 : gmap string pval := {["ntpserver" := PStr "ntp.acme.local"]} in
  let r2 : gmap string pval :=
    <["dns" := PStr "10.0.0.1"]> {["ntpserver" := PStr "ntp.site.local"]} in
  exists final,
    fst (pillar_loop three_sources (demo_opts []) ["ntp"; "site"] ∅ start)
      = Ret final /\
    (forall k v, final !! k = Some v ->
       exists r, In r [r1; r2] /\ r !! k = Some v) /\
    is_Some (final !! "dns").
Proof.
  intros r1 r2.
  destruct (pillar_merge_provenance three_sources (demo_opts [])
              ["ntp"; "site"] ∅ start
              (mkState 2
                 [EvCall "ldap.search" ["(cn=host1)"; "ou=hosts,o=acme"; "2"];
                  EvCall "ldap.search" ["(cn=site)"; "ou=hosts,o=acme"; "2"]])
              [r1; r2]) as (final & Hloop & Hfrom & Hkeys);
    [vm_compute; reflexivity|].
  exists final. split; [now rewrite Hloop|]. split.
  - intros k v Hk. destruct (Hfrom k v Hk) as [Hd|Hr]; [|exact Hr].
    rewrite lookup_empty in Hd. discriminate.
  - apply Hkeys. right. exists r2. split; [right; now left|].
    unfold r2. rewrite lookup_insert_eq. eauto.
Defined.

Lemma ext_pillar_merges_witness :
  let r1 : gmap string pval := {["ntpserver" := PStr "ntp.acme.local"]} in
  let r2 : gmap string pval :=
    <["dns" := PStr "10.0.0.1"]> {["ntpserver" := PStr "ntp.site.local"]} in
  let r3 : gmap string pval :=
    <["domain" := PStr "acme.local"]> {["ntpserver" := PStr "ntp.global"]} in
  ext_pillar three_sources config_path start =
    (Ret (merge_all ∅ [r1; r2; r3]),
     snd (ext_pillar three_sources config_path start)).
Proof.
  intros r1 r2 r3.
  apply (ext_pillar_merges three_sources config_path start _ tt 0 0
           ("ntp" ++ lf ++ "site" ++ lf ++ "global")
           (Some (demo_opts ["ntp"; "site"; "global"]))
           ["ntp"; "site"; "global"]); first [reflexivity | discriminate].
Defined.


End MoreRuns.
